(* Radar RH: shallow embedding of the risk-scoring engine of
   src/streamlit_app.py (calcular_score_risco, identificar_fatores_risco,
   gerar_recomendacoes, get_risk_level, get_risk_color, processar_planilha)
   and of the code built on it: the LinkedIn attach step of the upload
   page, the dashboard counters, create_risk_distribution_chart,
   create_department_chart and the rows of export_to_json.

   Modelling choices:
   - Python floats are modelled as exact rationals (Q); the special float
     values inf and nan are not represented there.  For the tenure field,
     whose value reaches int(), a second model [PyFloat] adds inf, -inf,
     nan and overflow to inf, and [calcular_score_risco_pf] runs the score
     on it.
   - Python ints are modelled as Z.
   - Python strings are Rocq strings (UTF-8 bytes); str.lower() is modelled
     as ASCII case folding, which agrees with Python on every string the
     program itself builds. *)

From Stdlib Require Import QArith Qround Qminmax ZArith List String Ascii Bool Lia Lqa.
Import ListNotations.
Open Scope Q_scope.

(* ------------------------------------------------------------------ *)
(** * Configuration (SCORING_CONFIG) *)

Record ScoringConfig := {
  peso_tempo_casa : Q;
  peso_pdi : Q;
  peso_treinamentos : Q;
  peso_linkedin : Q;
  peso_ausencias : Q;
  tempo_casa_critico : Q;
  tempo_casa_risco : Q;
  tempo_casa_estavel : Q;
  treinamentos_minimo : Z;
  ausencias_critico : Z;
  risco_baixo : Q;
  risco_medio : Q;
  risco_alto : Q
}.

Definition SCORING_CONFIG : ScoringConfig := {|
  peso_tempo_casa := 35 # 100;
  peso_pdi := 15 # 100;
  peso_treinamentos := 15 # 100;
  peso_linkedin := 25 # 100;
  peso_ausencias := 10 # 100;
  tempo_casa_critico := 25 # 100;
  tempo_casa_risco := 1;
  tempo_casa_estavel := 2;
  treinamentos_minimo := 1%Z;
  ausencias_critico := 8%Z;
  risco_baixo := 25;
  risco_medio := 55;
  risco_alto := 100
|}.

(* ------------------------------------------------------------------ *)
(** * Employee dataclass *)

(** The LinkedIn dict produced by [processar_pdf_linkedin].  Only the
    three keys the engine reads are kept; [dict.get(k, False)] of a
    missing key is [false].  An absent or empty dict ([None] / [{}], both
    falsy) is [None]. *)
Record LinkedinData := {
  ativo_recentemente : bool;
  mudancas_frequentes : bool;
  certificacoes_recentes : bool
}.

Record Employee := {
  nome : string;
  departamento : string;
  cargo : string;
  tempo_casa : Q;
  participou_pdi : bool;
  num_treinamentos : Z;
  num_ausencias : Z;
  linkedin_data : option LinkedinData;
  score_risco : Q;
  fatores_risco : option (list string);
  acoes_recomendadas : option (list string)
}.

Definition li_get (f : LinkedinData -> bool) (d : option LinkedinData) : bool :=
  match d with Some l => f l | None => false end.

(* ------------------------------------------------------------------ *)
(** * Python helpers *)

(** [a < b] on floats. *)
Definition Qltb (a b : Q) : bool := negb (Qle_bool b a).

(** Python [int(x)] on a float: truncation towards zero. *)
Definition py_int_of_float (q : Q) : Z :=
  if Qle_bool 0 q then Qfloor q else (- Qfloor (- q))%Z.

(** Python [max(a, b)] / [min(a, b)] on numbers (value-wise). *)
Definition py_maxQ (a b : Q) : Q := if Qltb a b then b else a.
Definition py_minQ (a b : Q) : Q := if Qltb b a then b else a.

(* ------------------------------------------------------------------ *)
(** * calcular_score_risco *)

(** The five [score += ...] blocks of [calcular_score_risco], in source
    order. *)

(** 1. Tempo de casa. *)
Definition score_tempo_casa (employee : Employee) : Q :=
  let c := SCORING_CONFIG in
  let tc := tempo_casa employee in
  if Qltb tc (tempo_casa_critico c) then 60 * peso_tempo_casa c
  else if Qltb tc (tempo_casa_risco c) then
    let risco_tempo := 40 - tc * 20 in
    py_maxQ risco_tempo 10 * peso_tempo_casa c
  else if Qltb tc (tempo_casa_estavel c) then 15 * peso_tempo_casa c
  else 0.

(** 2. PDI, contextual on tempo de casa. *)
Definition score_pdi (employee : Employee) : Q :=
  let c := SCORING_CONFIG in
  let tc := tempo_casa employee in
  if negb (participou_pdi employee) then
    if Qltb tc (1 # 2) then 10 * peso_pdi c
    else if Qltb tc 1 then 30 * peso_pdi c
    else 60 * peso_pdi c
  else 0.

(** [treinamentos_esperados = max(1, int(tempo_casa * 2))]. *)
Definition treinamentos_esperados (tc : Q) : Z :=
  Z.max 1 (py_int_of_float (tc * 2)).

(** 3. Treinamentos, contextual on tempo de casa. *)
Definition score_treinamentos (employee : Employee) : Q :=
  let c := SCORING_CONFIG in
  let tc := tempo_casa employee in
  let deficit_treinamentos :=
    Z.max 0 (treinamentos_esperados tc - num_treinamentos employee) in
  if Qltb tc (1 # 2) then
    if Z.eqb (num_treinamentos employee) 0 then 20 * peso_treinamentos c
    else 0
  else inject_Z (Z.min (deficit_treinamentos * 20) 50) * peso_treinamentos c.

(** 4. Ausencias. *)
Definition score_ausencias (employee : Employee) : Q :=
  let c := SCORING_CONFIG in
  if Z.ltb (ausencias_critico c) (num_ausencias employee) then
    let excesso := (num_ausencias employee - ausencias_critico c)%Z in
    inject_Z (Z.min (excesso * 10) 60) * peso_ausencias c
  else 0.

(** 5. LinkedIn (when the dict is present and non-empty). *)
Definition score_linkedin (employee : Employee) : Q :=
  let c := SCORING_CONFIG in
  match linkedin_data employee with
  | Some l =>
      (if ativo_recentemente l then 50 * peso_linkedin c else 0) +
      (if mudancas_frequentes l then 30 * peso_linkedin c else 0)
  | None => 0
  end.

Definition calcular_score_risco (employee : Employee) : Q :=
  let score := 0 + score_tempo_casa employee + score_pdi employee +
               score_treinamentos employee + score_ausencias employee +
               score_linkedin employee in
  py_minQ score 100.

(* ------------------------------------------------------------------ *)
(** * get_risk_level *)

Inductive RiskLevel := Baixo | Medio | Alto.

Definition get_risk_level (score : Q) : RiskLevel :=
  if Qle_bool score (risco_baixo SCORING_CONFIG) then Baixo
  else if Qle_bool score (risco_medio SCORING_CONFIG) then Medio
  else Alto.

(* ------------------------------------------------------------------ *)
(** * String helpers (str(int), str.lower(), the [in] operator) *)

Local Open Scope string_scope.

Fixpoint digits_aux (fuel : nat) (n : Z) (acc : string) : string :=
  match fuel with
  | O => acc
  | S f =>
      let acc' := String (ascii_of_nat (48 + Z.to_nat (Z.modulo n 10))) acc in
      if Z.eqb (Z.div n 10) 0 then acc' else digits_aux f (Z.div n 10) acc'
  end.

(** Python [str(n)] on an int. *)
Definition py_str_int (z : Z) : string :=
  if Z.ltb z 0
  then "-" ++ digits_aux (S (Z.to_nat (Z.log2 (- z)))) (- z) ""
  else digits_aux (S (Z.to_nat (Z.log2 z))) z "".

Definition ascii_lower (a : ascii) : ascii :=
  let n := nat_of_ascii a in
  if (Nat.leb 65 n && Nat.leb n 90)%bool then ascii_of_nat (n + 32) else a.

(** [s.lower()]. *)
Fixpoint py_lower (s : string) : string :=
  match s with
  | EmptyString => EmptyString
  | String a r => String (ascii_lower a) (py_lower r)
  end.

(** [needle in hay] for strings. *)
Fixpoint py_contains (needle hay : string) : bool :=
  (String.prefix needle hay ||
   match hay with
   | EmptyString => false
   | String _ r => py_contains needle r
   end)%bool.

(* ------------------------------------------------------------------ *)
(** * identificar_fatores_risco *)

Definition msg_muito_novo :=
  "Colaborador muito novo (< 3 meses) - período crítico de adaptação".
Definition msg_periodo_risco := "Colaborador em período de risco (< 1 ano)".
Definition msg_estabilizacao :=
  "Colaborador em processo de estabilização (1-2 anos)".
Definition msg_pdi_novo :=
  "PDI não realizado (normal para colaborador muito novo)".
Definition msg_pdi_6meses := "PDI não realizado (recomendado após 6 meses)".
Definition msg_pdi_experiente :=
  "PDI não realizado (crítico para colaborador experiente)".
Definition msg_sem_treinamento :=
  "Nenhum treinamento realizado (considerar treinamento de integração)".
Definition msg_deficit (n esp : Z) :=
  "Déficit de treinamentos: " ++ py_str_int n ++ " realizados de " ++
  py_str_int esp ++ " esperados".
Definition msg_ausencias_excessivas (n : Z) :=
  "Ausências excessivas (" ++ py_str_int n ++ " faltas - acima do limite de " ++
  py_str_int (ausencias_critico SCORING_CONFIG) ++ ")".
Definition msg_ausencias_moderadas (n : Z) :=
  "Ausências moderadas (" ++ py_str_int n ++ " faltas - monitorar)".
Definition msg_li_ativo :=
  "Perfil LinkedIn com atividade recente (possível busca ativa)".
Definition msg_li_mudancas :=
  "Histórico de mudanças frequentes de empresa no LinkedIn".
Definition msg_li_cert :=
  "Certificações/cursos recentes no LinkedIn (desenvolvimento próprio)".
Definition msg_estavel := "Perfil estável - baixo risco de saída".

(** The successive [fatores.append] blocks, in source order. *)
Definition fatores_tempo (e : Employee) : list string :=
  let tc := tempo_casa e in
  if Qltb tc (tempo_casa_critico SCORING_CONFIG) then [msg_muito_novo]
  else if Qltb tc (tempo_casa_risco SCORING_CONFIG) then [msg_periodo_risco]
  else if Qltb tc (tempo_casa_estavel SCORING_CONFIG) then [msg_estabilizacao]
  else [].

Definition fatores_pdi (e : Employee) : list string :=
  let tc := tempo_casa e in
  if negb (participou_pdi e) then
    if Qltb tc (1 # 2) then [msg_pdi_novo]
    else if Qltb tc 1 then [msg_pdi_6meses]
    else [msg_pdi_experiente]
  else [].

Definition fatores_treinamentos (e : Employee) : list string :=
  let tc := tempo_casa e in
  let esperados := treinamentos_esperados tc in
  if Z.ltb (num_treinamentos e) esperados then
    if Qltb tc (1 # 2) then
      if Z.eqb (num_treinamentos e) 0 then [msg_sem_treinamento] else []
    else [msg_deficit (num_treinamentos e) esperados]
  else [].

Definition fatores_ausencias (e : Employee) : list string :=
  if Z.ltb (ausencias_critico SCORING_CONFIG) (num_ausencias e)
  then [msg_ausencias_excessivas (num_ausencias e)]
  else if Z.ltb 3 (num_ausencias e)
  then [msg_ausencias_moderadas (num_ausencias e)]
  else [].

Definition fatores_linkedin (e : Employee) : list string :=
  match linkedin_data e with
  | Some l =>
      ((if ativo_recentemente l then [msg_li_ativo] else []) ++
       (if mudancas_frequentes l then [msg_li_mudancas] else []) ++
       (if certificacoes_recentes l then [msg_li_cert] else []))%list
  | None => []
  end.

Definition identificar_fatores_risco (employee : Employee) : list string :=
  let fatores :=
    (fatores_tempo employee ++ fatores_pdi employee ++
     fatores_treinamentos employee ++ fatores_ausencias employee ++
     fatores_linkedin employee)%list in
  match fatores with
  | [] =>
      if (Qle_bool 2 (tempo_casa employee) && participou_pdi employee &&
          Z.leb (num_ausencias employee) 3)%bool
      then [msg_estavel] else []
  | _ => fatores
  end.

(* ------------------------------------------------------------------ *)
(** * gerar_recomendacoes *)

Definition any_contains (needle : string) (fatores : list string) : bool :=
  existsb (fun fator => py_contains needle (py_lower fator)) fatores.

Definition gerar_recomendacoes (fatores_risco : list string)
  (employee : Employee) : list string :=
  let r1 := if any_contains "tempo de casa" fatores_risco then
      ["Implementar programa de mentoria para novos colaboradores";
       "Agendar check-ins regulares com gestor direto"] else [] in
  let r2 := if any_contains "pdi" fatores_risco then
      ["Agendar reunião de PDI e definir metas de carreira";
       "Criar plano de desenvolvimento individual"] else [] in
  let r3 := if any_contains "treinamentos" fatores_risco then
      ["Oferecer trilha de desenvolvimento personalizada";
       "Inscrever em cursos relevantes para o cargo"] else [] in
  let r4 := if any_contains "ausências" fatores_risco then
      ["Realizar conversa individual para entender causas";
       "Avaliar necessidade de suporte adicional"] else [] in
  let r5 := if any_contains "linkedin" fatores_risco then
      ["Conduzir pesquisa de satisfação confidencial";
       "Agendar 1:1 para discussão de carreira"] else [] in
  match (r1 ++ r2 ++ r3 ++ r4 ++ r5)%list with
  | [] => ["Manter acompanhamento regular"; "Reconhecer bom desempenho"]
  | recomendacoes => recomendacoes
  end.

(** A Python call [gerar_recomendacoes(x, employee)] where [x] may be
    [None]: the first [any(... for fator in fatores_risco)] iterates [x],
    which raises [TypeError] on [None] ([inl] carries the exception). *)
Definition gerar_recomendacoes_py (fatores_risco : option (list string))
  (employee : Employee) : string + list string :=
  match fatores_risco with
  | None => inl "TypeError: 'NoneType' object is not iterable"
  | Some fs => inr (gerar_recomendacoes fs employee)
  end.

Local Close Scope string_scope.

(** [dataclasses.replace(employee, num_ausencias=a)] and
    [dataclasses.replace(employee, tempo_casa=t)]: one input changed, all
    other fields kept. *)
Definition set_ausencias (e : Employee) (a : Z) : Employee := {|
  nome := nome e; departamento := departamento e; cargo := cargo e;
  tempo_casa := tempo_casa e; participou_pdi := participou_pdi e;
  num_treinamentos := num_treinamentos e; num_ausencias := a;
  linkedin_data := linkedin_data e; score_risco := score_risco e;
  fatores_risco := fatores_risco e; acoes_recomendadas := acoes_recomendadas e |}.

Definition set_tempo_casa (e : Employee) (t : Q) : Employee := {|
  nome := nome e; departamento := departamento e; cargo := cargo e;
  tempo_casa := t; participou_pdi := participou_pdi e;
  num_treinamentos := num_treinamentos e; num_ausencias := num_ausencias e;
  linkedin_data := linkedin_data e; score_risco := score_risco e;
  fatores_risco := fatores_risco e; acoes_recomendadas := acoes_recomendadas e |}.

(** A freshly built record, as [Employee(...)] leaves it. *)
Definition mk_employee (n d c : string) (t : Q) (p : bool) (tr au : Z)
  : Employee := {|
  nome := n; departamento := d; cargo := c; tempo_casa := t;
  participou_pdi := p; num_treinamentos := tr; num_ausencias := au;
  linkedin_data := None; score_risco := 0; fatores_risco := None;
  acoes_recomendadas := None |}.

(* ------------------------------------------------------------------ *)
(** * Recomputing the derived fields of a record *)

Definition set_score (e : Employee) (v : Q) : Employee := {|
  nome := nome e; departamento := departamento e; cargo := cargo e;
  tempo_casa := tempo_casa e; participou_pdi := participou_pdi e;
  num_treinamentos := num_treinamentos e; num_ausencias := num_ausencias e;
  linkedin_data := linkedin_data e; score_risco := v;
  fatores_risco := fatores_risco e; acoes_recomendadas := acoes_recomendadas e |}.

Definition set_fatores (e : Employee) (v : list string) : Employee := {|
  nome := nome e; departamento := departamento e; cargo := cargo e;
  tempo_casa := tempo_casa e; participou_pdi := participou_pdi e;
  num_treinamentos := num_treinamentos e; num_ausencias := num_ausencias e;
  linkedin_data := linkedin_data e; score_risco := score_risco e;
  fatores_risco := Some v; acoes_recomendadas := acoes_recomendadas e |}.

Definition set_acoes (e : Employee) (v : list string) : Employee := {|
  nome := nome e; departamento := departamento e; cargo := cargo e;
  tempo_casa := tempo_casa e; participou_pdi := participou_pdi e;
  num_treinamentos := num_treinamentos e; num_ausencias := num_ausencias e;
  linkedin_data := linkedin_data e; score_risco := score_risco e;
  fatores_risco := fatores_risco e; acoes_recomendadas := Some v |}.

(** The three assignments after [Employee(...)] in [processar_planilha]. *)
Definition pontuar (employee : Employee) : Employee :=
  let e1 := set_score employee (calcular_score_risco employee) in
  let fs := identificar_fatores_risco e1 in
  let e2 := set_fatores e1 fs in
  set_acoes e2 (gerar_recomendacoes fs e2).

(* ------------------------------------------------------------------ *)
(** * processar_planilha *)

(** Python exceptions are [inl msg]; [x <- m ;; k] propagates them. *)
Definition py_bind {A B : Type} (m : string + A) (k : A -> string + B)
  : string + B :=
  match m with inl err => inl err | inr a => k a end.

Notation "x <- m ;; k" := (py_bind m (fun x => k))
  (at level 61, m at next level, right associativity).

(* ------------------------------------------------------------------ *)
(** * calcular_score_risco over Python floats *)




















Local Open Scope string_scope.

Definition is_py_space (a : ascii) : bool :=
  let n := nat_of_ascii a in
  ((Nat.leb 9 n && Nat.leb n 13) || (Nat.leb 28 n && Nat.leb n 32))%bool.

Fixpoint lstrip (s : string) : string :=
  match s with
  | String a r => if is_py_space a then lstrip r else s
  | EmptyString => EmptyString
  end.

Fixpoint rev_string (s acc : string) : string :=
  match s with
  | String a r => rev_string r (String a acc)
  | EmptyString => acc
  end.

(** [s.strip()] (ASCII whitespace). *)
Definition py_strip (s : string) : string :=
  rev_string (lstrip (rev_string (lstrip s) "")) "".

(** [s.replace(' ', '_')]. *)
Fixpoint replace_space (s : string) : string :=
  match s with
  | String a r =>
      String (if Ascii.eqb a " "%char then "_"%char else a) (replace_space r)
  | EmptyString => EmptyString
  end.

(** [df.columns.str.lower().str.strip().str.replace(' ', '_')]. *)
Definition normalizar_coluna (c : string) : string :=
  replace_space (py_strip (py_lower c)).

Definition required_columns : list string :=
  ["nome"; "departamento"; "cargo"; "tempo_casa"; "participou_pdi";
   "num_treinamentos"; "num_ausencias"].

Definition missing_columns (cols : list string) : list string :=
  filter (fun col => negb (existsb (String.eqb col) cols)) required_columns.

(** [', '.join(xs)]. *)
Fixpoint py_join (sep : string) (xs : list string) : string :=
  match xs with
  | [] => ""
  | [x] => x
  | x :: r => x ++ sep ++ py_join sep r
  end.

Definition msg_colunas_ausentes (missing : list string) : string :=
  "Colunas obrigatórias ausentes: " ++ py_join ", " missing.

(** What the batch shows to the user: [st.error] and [st.warning] calls. *)
Inductive StMessage := StError (msg : string) | StWarning (msg : string).

Section Batch.

(** A cell of the DataFrame and the Python builtins applied to it:
    [str(v)], [float(v)] and [int(v)] (the latter two may raise). *)
Variable cell : Type.
Variable py_str : cell -> string.
Variable py_float : cell -> string + Q.
Variable py_int : cell -> string + Z.

(** A DataFrame: its column labels and its rows, each row holding one
    cell per column. *)
Record DataFrame := { df_columns : list string; df_rows : list (list cell) }.

(** [row[k]] after renaming the columns to [cols] (first matching
    label); a missing label raises [KeyError]. *)
Fixpoint row_lookup (cols : list string) (row : list cell) (k : string)
  : option cell :=
  match cols, row with
  | c :: cs, v :: vs => if String.eqb c k then Some v else row_lookup cs vs k
  | _, _ => None
  end.

Definition row_getitem (cols : list string) (row : list cell) (k : string)
  : string + cell :=
  match row_lookup cols row k with
  | Some v => inr v
  | None => inl ("KeyError: '" ++ k ++ "'")
  end.

(** [Employee(nome=..., ..., num_ausencias=...)], arguments evaluated in
    order. *)
Definition construir_employee (cols : list string) (row : list cell)
  : string + Employee :=
  v_nome <- row_getitem cols row "nome" ;;
  v_dep <- row_getitem cols row "departamento" ;;
  v_cargo <- row_getitem cols row "cargo" ;;
  v_tc <- row_getitem cols row "tempo_casa" ;;
  tc <- py_float v_tc ;;
  v_pdi <- row_getitem cols row "participou_pdi" ;;
  v_tr <- row_getitem cols row "num_treinamentos" ;;
  tr <- py_int v_tr ;;
  v_au <- row_getitem cols row "num_ausencias" ;;
  au <- py_int v_au ;;
  inr {|
    nome := py_strip (py_str v_nome);
    departamento := py_strip (py_str v_dep);
    cargo := py_strip (py_str v_cargo);
    tempo_casa := tc;
    participou_pdi :=
      existsb (String.eqb (py_lower (py_str v_pdi)))
        ["sim"; "yes"; "true"; "1"];
    num_treinamentos := tr;
    num_ausencias := au;
    linkedin_data := None;
    score_risco := 0;
    fatores_risco := None;
    acoes_recomendadas := None |}.

(** [f"Erro ao processar colaborador {row.get('nome', 'desconhecido')}: {str(e)}"]. *)
Definition msg_erro_linha (cols : list string) (row : list cell)
  (err : string) : string :=
  let quem := match row_lookup cols row "nome" with
              | Some v => py_str v
              | None => "desconhecido"
              end in
  "Erro ao processar colaborador " ++ quem ++ ": " ++ err.

(** The [for _, row in df.iterrows(): try ... except ...] loop. *)
Fixpoint processar_linhas (cols : list string) (rows : list (list cell))
  : list Employee * list StMessage :=
  match rows with
  | [] => ([], [])
  | row :: rest =>
      let '(emps, msgs) := processar_linhas cols rest in
      match construir_employee cols row with
      | inr employee => (pontuar employee :: emps, msgs)
      | inl err => (emps, StWarning (msg_erro_linha cols row err) :: msgs)
      end
  end.

Definition processar_planilha (df : DataFrame)
  : list Employee * list StMessage :=
  let cols := map normalizar_coluna (df_columns df) in
  match missing_columns cols with
  | [] => processar_linhas cols (df_rows df)
  | missing => ([], [StError (msg_colunas_ausentes missing)])
  end.

End Batch.

Arguments df_columns {cell} _.
Arguments df_rows {cell} _.
Arguments Build_DataFrame {cell} _ _.

Local Close Scope string_scope.

(* ------------------------------------------------------------------ *)
(** * Cells read as text, for concrete batches *)

Module TextCells.
Local Open Scope string_scope.

Fixpoint parse_digits (s : string) (acc : Z) : option Z :=
  match s with
  | EmptyString => Some acc
  | String a r =>
      let n := nat_of_ascii a in
      if (Nat.leb 48 n && Nat.leb n 57)%bool
      then parse_digits r (acc * 10 + Z.of_nat (n - 48))%Z
      else None
  end.

Definition parse_unsigned (s : string) : option Z :=
  match s with EmptyString => None | _ => parse_digits s 0 end.

Fixpoint split_dot (s : string) : string * option string :=
  match s with
  | EmptyString => (EmptyString, None)
  | String a r =>
      if Ascii.eqb a "."%char then (EmptyString, Some r)
      else let '(ip, fp) := split_dot r in (String a ip, fp)
  end.

Definition strip_minus (s : string) : bool * string :=
  match s with
  | String a r => if Ascii.eqb a "-"%char then (true, r) else (false, s)
  | EmptyString => (false, s)
  end.

(** [int(s)] for a text cell: an optionally signed run of digits. *)
Definition int_of_text (s : string) : string + Z :=
  let '(neg, body) := strip_minus s in
  match parse_unsigned body with
  | Some z => inr (if neg then - z else z)%Z
  | None => inl ("ValueError: invalid literal for int() with base 10: '" ++ s ++ "'")
  end.

(** [float(s)] for a text cell: an optionally signed decimal numeral. *)
Definition float_of_text (s : string) : string + Q :=
  let '(neg, body) := strip_minus s in
  let err := inl ("ValueError: could not convert string to float: '" ++ s ++ "'") in
  let sign (q : Q) := if neg then - q else q in
  match split_dot body with
  | (ip, None) =>
      match parse_unsigned ip with Some z => inr (sign (inject_Z z)) | None => err end
  | (ip, Some fp) =>
      match parse_unsigned ip, parse_unsigned fp with
      | Some z, Some f =>
          inr (sign (inject_Z z + Qmake f (Pos.pow 10 (Pos.of_nat (String.length fp)))))
      | _, _ => err
      end
  end.

Definition str_of_text (s : string) : string := s.

Definition processar (df : DataFrame string) :=
  processar_planilha string str_of_text float_of_text int_of_text df.

End TextCells.

(* ------------------------------------------------------------------ *)
(** * get_risk_color *)

Local Open Scope string_scope.

(** The three [COLORS] entries [get_risk_color] returns. *)
Definition COLORS_success : string := "#2ca02c".
Definition COLORS_secondary : string := "#ff7f0e".
Definition COLORS_warning : string := "#d62728".

Definition get_risk_color (score : Q) : string :=
  if Qle_bool score (risco_baixo SCORING_CONFIG) then COLORS_success
  else if Qle_bool score (risco_medio SCORING_CONFIG) then COLORS_secondary
  else COLORS_warning.

(* ------------------------------------------------------------------ *)
(** * Attaching a LinkedIn PDF (render_upload_page, "Processar Todos os
      PDFs Associados") *)

(** The dict returned by [processar_pdf_linkedin], as the caller reads
    it: [get("erro")], [get("texto_extraido", False)] and the three
    flags. *)
Record PdfLinkedin := {
  pl_erro : option string;
  pl_texto_extraido : option bool;
  pl_flags : LinkedinData
}.

(** [if linkedin_data.get("erro"):] (a non-empty string is truthy). *)
Definition pl_tem_erro (r : PdfLinkedin) : bool :=
  match pl_erro r with
  | Some msg => negb (String.eqb msg "")
  | None => false
  end.

Definition set_linkedin (e : Employee) (d : option LinkedinData) : Employee := {|
  nome := nome e; departamento := departamento e; cargo := cargo e;
  tempo_casa := tempo_casa e; participou_pdi := participou_pdi e;
  num_treinamentos := num_treinamentos e; num_ausencias := num_ausencias e;
  linkedin_data := d; score_risco := score_risco e;
  fatores_risco := fatores_risco e; acoes_recomendadas := acoes_recomendadas e |}.

(** One iteration of the loop over [pdf_employee_mapping]: on an error
    or when no text was extracted the loop [continue]s and counts an
    error ([false]); otherwise the dict is stored in the employee and the
    derived fields are recomputed ([true]). *)
Definition anexar_pdf_linkedin (employee : Employee) (r : PdfLinkedin)
  : Employee * bool :=
  if pl_tem_erro r then (employee, false)
  else if negb (match pl_texto_extraido r with Some b => b | None => false end)
  then (employee, false)
  else (pontuar (set_linkedin employee (Some (pl_flags r))), true).

(* ------------------------------------------------------------------ *)
(** * Dashboard counters and charts *)

(** [risk_counts] of [create_risk_distribution_chart]: Baixo, Médio,
    Alto. *)
Record RiskCounts := { rc_baixo : nat; rc_medio : nat; rc_alto : nat }.

Definition conta_nivel (rc : RiskCounts) (level : RiskLevel) : RiskCounts :=
  match level with
  | Baixo => {| rc_baixo := S (rc_baixo rc); rc_medio := rc_medio rc; rc_alto := rc_alto rc |}
  | Medio => {| rc_baixo := rc_baixo rc; rc_medio := S (rc_medio rc); rc_alto := rc_alto rc |}
  | Alto => {| rc_baixo := rc_baixo rc; rc_medio := rc_medio rc; rc_alto := S (rc_alto rc) |}
  end.

Definition risk_counts (employees : list Employee) : RiskCounts :=
  fold_left (fun rc emp => conta_nivel rc (get_risk_level (score_risco emp)))
    employees {| rc_baixo := 0; rc_medio := 0; rc_alto := 0 |}.

(** The strings [get_risk_level] returns for its three branches. *)
Definition nivel_str (level : RiskLevel) : string :=
  match level with
  | Baixo => "Baixo"
  | Medio => "Médio"
  | Alto => "Alto"
  end.

(** The dict [risk_counts = {"Baixo": 0, "Médio": 0, "Alto": 0}] of
    [create_risk_distribution_chart], in insertion order, and
    [risk_counts[level] += 1], which raises [KeyError] on a missing key. *)
Definition risk_counts_init : list (string * nat) :=
  [("Baixo", 0%nat); ("Médio", 0%nat); ("Alto", 0%nat)].

Fixpoint dict_incr (k : string) (d : list (string * nat))
  : string + list (string * nat) :=
  match d with
  | [] => inl ("KeyError: '" ++ k ++ "'")
  | (k', v) :: rest =>
      if String.eqb k' k then inr ((k', S v) :: rest)
      else (rest' <- dict_incr k rest ;; inr ((k', v) :: rest'))
  end.

Definition risk_counts_dict (employees : list Employee)
  : string + list (string * nat) :=
  fold_left (fun acc emp =>
      rc <- acc ;; dict_incr (nivel_str (get_risk_level (score_risco emp))) rc)
    employees (inr risk_counts_init).

(** [high_risk = len([e for e in employees if e.score_risco > 60])] and
    [medium_risk] of [render_dashboard_page]. *)
Definition dashboard_high_risk (employees : list Employee) : nat :=
  List.length (filter (fun e => Qltb 60 (score_risco e)) employees).

Definition dashboard_medium_risk (employees : list Employee) : nat :=
  List.length (filter (fun e => (Qltb 30 (score_risco e) &&
                                 Qle_bool (score_risco e) 60)%bool) employees).

(** [dept_data] of [create_department_chart]: a dict from department to
    the list of scores, in insertion order. *)
Fixpoint dept_add (d : string) (s : Q) (dd : list (string * list Q))
  : list (string * list Q) :=
  match dd with
  | [] => [(d, [s])]
  | (k, ss) :: rest =>
      if String.eqb k d then (k, (ss ++ [s])%list) :: rest
      else (k, ss) :: dept_add d s rest
  end.

Definition dept_data (employees : list Employee) : list (string * list Q) :=
  fold_left (fun dd emp => dept_add (departamento emp) (score_risco emp) dd)
    employees [].

Local Close Scope string_scope.

(* ------------------------------------------------------------------ *)
(** * Character classes used to reason about substring search *)

(** The characters [str(n)] produces for an int: digits and '-'. *)
Definition digito (c : ascii) : bool :=
  let n := nat_of_ascii c in
  (Nat.eqb n 45 || (Nat.leb 48 n && Nat.leb n 57))%bool.

Fixpoint all_chars (p : ascii -> bool) (s : string) : bool :=
  match s with
  | EmptyString => true
  | String c r => (p c && all_chars p r)%bool
  end.

(** A search pattern with no character [str(n)] can produce. *)
Definition padrao_sem_digitos (needle : string) : bool :=
  (negb (String.eqb needle EmptyString) &&
   all_chars (fun c => negb (digito c)) needle)%bool.

(* ------------------------------------------------------------------ *)
(** * export_to_json *)

(** Python [round(x, 1)] on a float: the exact value rounded to one
    decimal, ties to even. *)
Definition py_round1 (x : Q) : Q :=
  let y := x * 10 in
  let f := Qfloor y in
  let r := y - inject_Z f in
  let z := if Qltb r (1 # 2) then f
           else if Qltb (1 # 2) r then (f + 1)%Z
           else if Z.even f then f else (f + 1)%Z in
  inject_Z z / 10.

(** The dict built for each employee by [export_to_json] (before
    [json.dumps]); ["nivel_risco"] is [get_risk_level(emp.score_risco)]
    and [x or []] maps [None] and [[]] to [[]]. *)
Record LinhaJson := {
  j_nome : string;
  j_departamento : string;
  j_cargo : string;
  j_tempo_casa : Q;
  j_score_risco : Q;
  j_nivel_risco : RiskLevel;
  j_fatores_risco : list string;
  j_acoes_recomendadas : list string
}.

Definition py_or_vazia (x : option (list string)) : list string :=
  match x with Some l => l | None => [] end.

Definition linha_json (emp : Employee) : LinhaJson := {|
  j_nome := nome emp;
  j_departamento := departamento emp;
  j_cargo := cargo emp;
  j_tempo_casa := tempo_casa emp;
  j_score_risco := py_round1 (score_risco emp);
  j_nivel_risco := get_risk_level (score_risco emp);
  j_fatores_risco := py_or_vazia (fatores_risco emp);
  j_acoes_recomendadas := py_or_vazia (acoes_recomendadas emp) |}.

Definition export_to_json_data (employees : list Employee) : list LinhaJson :=
  map linha_json employees.

(* ------------------------------------------------------------------ *)
(** * Concrete inputs used by the properties *)

(** The record of the worked example: 7 years, no PDI, 0 trainings,
    50 absences, no LinkedIn bundle. *)
Definition exemplo_7_anos : Employee :=
  mk_employee "Ana" "TI" "Dev" 7 false 0 50.

Local Open Scope string_scope.

(** The five categories [gerar_recomendacoes] looks for, in order. *)
Definition categorias_recomendacao : list string :=
  ["tempo de casa"; "pdi"; "treinamentos"; "ausências"; "linkedin"].

Definition recomendacoes_padrao : list string :=
  ["Manter acompanhamento regular"; "Reconhecer bom desempenho"].

Definition planilha_sem_pdi : DataFrame string := {|
  df_columns := ["Nome"; " Departamento "; "Cargo"; "Tempo Casa";
                 "Num Treinamentos"];
  df_rows := [["Ana"; "TI"; "Dev"; "3"; "6"]] |}.

Definition colunas_completas : list string :=
  ["Nome"; "Departamento"; "Cargo"; "Tempo Casa"; "Participou PDI";
   "Num Treinamentos"; "Num Ausencias"].

Definition linha_ana : list string := ["Ana"; "TI"; "Dev"; "3"; "sim"; "6"; "2"].
Definition linha_bia : list string := ["Bia"; "RH"; "Analista"; "abc"; "nao"; "1"; "0"].
Definition linha_caio : list string :=
  ["  Caio "; "Vendas"; "Gerente"; "0.5"; "no"; "0"; "10"].

Definition perfil_a : Employee := {|
  nome := "Ana"; departamento := "TI"; cargo := "Dev"; tempo_casa := 3;
  participou_pdi := true; num_treinamentos := 6; num_ausencias := 2;
  linkedin_data := Some {| ativo_recentemente := true;
                           mudancas_frequentes := false;
                           certificacoes_recentes := true |};
  score_risco := 0; fatores_risco := None; acoes_recomendadas := None |}.

Definition perfil_b : Employee := {|
  nome := "Bruno"; departamento := "RH"; cargo := "Analista"; tempo_casa := 3;
  participou_pdi := true; num_treinamentos := 6; num_ausencias := 2;
  linkedin_data := Some {| ativo_recentemente := true;
                           mudancas_frequentes := false;
                           certificacoes_recentes := false |};
  score_risco := 0; fatores_risco := None; acoes_recomendadas := None |}.

(** A LinkedIn PDF result with extracted text and two flags set. *)
Definition pdf_ativo : PdfLinkedin := {|
  pl_erro := None; pl_texto_extraido := Some true;
  pl_flags := {| ativo_recentemente := true; mudancas_frequentes := false;
                 certificacoes_recentes := true |} |}.

(** A stable record: 3 years, PDI done, 6 trainings, 2 absences. *)
Definition perfil_estavel : Employee := mk_employee "Carla" "TI" "Dev" 3 true 6 2.

Local Close Scope string_scope.

(* ================================================================== *)
(** * Properties *)

Ltac qdec := apply Qle_bool_iff; reflexivity.

Lemma Qltb_false_iff (a b : Q) : Qltb a b = false <-> b <= a.
Proof. unfold Qltb. rewrite negb_false_iff. apply Qle_bool_iff. Qed.

Lemma Qltb_true_iff (a b : Q) : Qltb a b = true <-> a < b.
Proof.
  unfold Qltb. rewrite negb_true_iff. split; intro H.
  - apply Qnot_le_lt. intro H'. apply Qle_bool_iff in H'. congruence.
  - destruct (Qle_bool b a) eqn:E; [|reflexivity].
    apply Qle_bool_iff in E. exfalso. exact (Qlt_not_le _ _ H E).
Qed.

Lemma py_minQ_le_100 (a : Q) : py_minQ a 100 <= 100.
Proof.
  unfold py_minQ. destruct (Qltb 100 a) eqn:E.
  - apply Qle_refl.
  - apply Qltb_false_iff in E. exact E.
Qed.

Lemma py_minQ_nonneg (a : Q) : 0 <= a -> 0 <= py_minQ a 100.
Proof.
  intro H. unfold py_minQ. destruct (Qltb 100 a); [qdec | exact H].
Qed.

Lemma py_minQ_mono (a b : Q) : a <= b -> py_minQ a 100 <= py_minQ b 100.
Proof.
  intro H. unfold py_minQ.
  destruct (Qltb 100 a) eqn:Ea, (Qltb 100 b) eqn:Eb.
  - apply Qle_refl.
  - apply Qltb_true_iff in Ea. apply Qltb_false_iff in Eb.
    exfalso. apply (Qlt_not_le _ _ Ea). exact (Qle_trans _ _ _ H Eb).
  - apply Qltb_false_iff in Ea. exact Ea.
  - exact H.
Qed.

Lemma py_maxQ_ge_r (a b : Q) : b <= py_maxQ a b.
Proof.
  unfold py_maxQ. destruct (Qltb a b) eqn:E.
  - apply Qle_refl.
  - apply Qltb_false_iff in E. exact E.
Qed.

Lemma inject_Z_nonneg (z : Z) : (0 <= z)%Z -> 0 <= inject_Z z.
Proof. intro H. change 0 with (inject_Z 0). rewrite <- Zle_Qle. exact H. Qed.

Lemma inject_Z_mono (x y : Z) : (x <= y)%Z -> inject_Z x <= inject_Z y.
Proof. intro H. rewrite <- Zle_Qle. exact H. Qed.

Create HintDb score.
#[local] Hint Resolve Qmult_le_0_compat inject_Z_nonneg Qle_refl : score.

Lemma score_tempo_casa_nonneg (e : Employee) : 0 <= score_tempo_casa e.
Proof.
  unfold score_tempo_casa.
  destruct (Qltb _ (tempo_casa_critico _)); [qdec|].
  destruct (Qltb _ (tempo_casa_risco _)).
  - apply Qmult_le_0_compat; [|qdec].
    apply Qle_trans with 10; [qdec | apply py_maxQ_ge_r].
  - destruct (Qltb _ (tempo_casa_estavel _)); qdec.
Qed.

Lemma score_pdi_nonneg (e : Employee) : 0 <= score_pdi e.
Proof.
  unfold score_pdi.
  destruct (negb _); [|qdec].
  destruct (Qltb _ (1 # 2)); [qdec|]. destruct (Qltb _ 1); qdec.
Qed.

Lemma score_treinamentos_nonneg (e : Employee) : 0 <= score_treinamentos e.
Proof.
  unfold score_treinamentos.
  destruct (Qltb _ (1 # 2)).
  - destruct (Z.eqb _ 0); qdec.
  - apply Qmult_le_0_compat; [apply inject_Z_nonneg; lia | qdec].
Qed.

Lemma score_ausencias_nonneg (e : Employee) : 0 <= score_ausencias e.
Proof.
  unfold score_ausencias. simpl.
  destruct (Z.ltb 8 (num_ausencias e)) eqn:E; [|qdec].
  apply Z.ltb_lt in E.
  apply Qmult_le_0_compat; [apply inject_Z_nonneg; lia | qdec].
Qed.

Lemma score_linkedin_nonneg (e : Employee) : 0 <= score_linkedin e.
Proof.
  unfold score_linkedin. destruct (linkedin_data e) as [l|]; [|qdec].
  destruct (ativo_recentemente l), (mudancas_frequentes l); qdec.
Qed.

Lemma soma_nonneg (a b c d f : Q) :
  0 <= a -> 0 <= b -> 0 <= c -> 0 <= d -> 0 <= f ->
  0 <= 0 + a + b + c + d + f.
Proof.
  intros Ha Hb Hc Hd Hf.
  repeat (apply (Qplus_le_compat 0 _ 0 _ ); [|assumption]).
  apply Qle_refl.
Qed.

(** In the exact model (floats as rationals) the score of every employee
    record lies in [0, 100]; the floating-point model below
    ([calcular_score_risco_pf]) relates the two. *)
Theorem calcular_score_risco_bounds (e : Employee) :
  0 <= calcular_score_risco e /\ calcular_score_risco e <= 100.
Proof.
  unfold calcular_score_risco. split.
  - apply py_minQ_nonneg, soma_nonneg;
      auto using score_tempo_casa_nonneg, score_pdi_nonneg,
        score_treinamentos_nonneg, score_ausencias_nonneg,
        score_linkedin_nonneg.
  - apply py_minQ_le_100.
Qed.

(** C2: [get_risk_level] is total and splits the scores into three
    contiguous, non-overlapping tiers at [risco_baixo] (25) and
    [risco_medio] (55); a score equal to a bound falls in the lower
    tier. *)
Theorem get_risk_level_tiers (score : Q) :
  risco_baixo SCORING_CONFIG <= risco_medio SCORING_CONFIG /\
  (get_risk_level score = Baixo <-> score <= risco_baixo SCORING_CONFIG) /\
  (get_risk_level score = Medio <->
     risco_baixo SCORING_CONFIG < score /\ score <= risco_medio SCORING_CONFIG) /\
  (get_risk_level score = Alto <-> risco_medio SCORING_CONFIG < score).
Proof.
  unfold get_risk_level.
  destruct (Qle_bool score (risco_baixo SCORING_CONFIG)) eqn:E1;
  [|destruct (Qle_bool score (risco_medio SCORING_CONFIG)) eqn:E2].
  - apply Qle_bool_iff in E1.
    split; [qdec|]. split; [tauto|]. split.
    + split; [discriminate|]. intros [H _]. exfalso.
      exact (Qlt_not_le _ _ H E1).
    + split; [discriminate|]. intro H. exfalso.
      apply (Qlt_not_le _ _ H). apply Qle_trans with (1 := E1). qdec.
  - apply Qle_bool_iff in E2.
    assert (H1 : risco_baixo SCORING_CONFIG < score).
    { apply Qnot_le_lt. intro H. apply Qle_bool_iff in H. congruence. }
    split; [qdec|]. split.
    + split; [discriminate|]. intro H. exfalso. exact (Qlt_not_le _ _ H1 H).
    + split; [tauto|]. split; [discriminate|]. intro H. exfalso.
      exact (Qlt_not_le _ _ H E2).
  - assert (H2 : risco_medio SCORING_CONFIG < score).
    { apply Qnot_le_lt. intro H. apply Qle_bool_iff in H. congruence. }
    assert (H1 : risco_baixo SCORING_CONFIG < score).
    { apply Qle_lt_trans with (risco_medio SCORING_CONFIG); [qdec | exact H2]. }
    split; [qdec|]. split.
    + split; [discriminate|]. intro H. exfalso. exact (Qlt_not_le _ _ H1 H).
    + split.
      * split; [discriminate|]. intros [_ H]. exfalso.
        exact (Qlt_not_le _ _ H2 H).
      * tauto.
Qed.

Lemma score_ausencias_mono (e : Employee) (a b : Z) :
  (a <= b)%Z ->
  score_ausencias (set_ausencias e a) <= score_ausencias (set_ausencias e b).
Proof.
  intro H. unfold score_ausencias. simpl.
  destruct (Z.ltb 8 a) eqn:Ea, (Z.ltb 8 b) eqn:Eb.
  - apply Qmult_le_compat_r; [apply inject_Z_mono; lia | qdec].
  - apply Z.ltb_lt in Ea. apply Z.ltb_ge in Eb. lia.
  - apply Z.ltb_lt in Eb.
    apply Qmult_le_0_compat; [apply inject_Z_nonneg; lia | qdec].
  - qdec.
Qed.

(** C3: holding every other field fixed, the score is non-decreasing in
    [num_ausencias]. *)
Theorem calcular_score_risco_mono_ausencias (e : Employee) (a b : Z)
  (Hab : (a <= b)%Z) :
  calcular_score_risco (set_ausencias e a) <=
  calcular_score_risco (set_ausencias e b).
Proof.
  unfold calcular_score_risco. apply py_minQ_mono.
  apply Qplus_le_compat; [|apply Qle_refl].
  apply Qplus_le_compat; [apply Qle_refl|].
  apply score_ausencias_mono. exact Hab.
Qed.

Lemma calcular_score_risco_mono_ausencias_witness :
  (3 <= 12)%Z /\
  calcular_score_risco (set_ausencias (mk_employee "Ana" "TI" "Dev" 1 false 0 0) 3)
  <= calcular_score_risco (set_ausencias (mk_employee "Ana" "TI" "Dev" 1 false 0 0) 12).
Proof.
  split; [lia|]. apply calcular_score_risco_mono_ausencias. lia.
Defined.

Lemma Qltb_false_above (t c : Q) : 2 <= t -> Qle_bool c 2 = true -> Qltb t c = false.
Proof.
  intros Ht Hc. apply Qltb_false_iff. apply Qle_bool_iff in Hc.
  exact (Qle_trans _ _ _ Hc Ht).
Qed.

Lemma treinamentos_esperados_mono (t1 t2 : Q) :
  0 <= t1 -> t1 <= t2 ->
  (treinamentos_esperados t1 <= treinamentos_esperados t2)%Z.
Proof.
  intros H0 H12. unfold treinamentos_esperados, py_int_of_float.
  assert (H0' : 0 <= t2) by exact (Qle_trans _ _ _ H0 H12).
  assert (Hm1 : 0 <= t1 * 2) by (apply Qmult_le_0_compat; [exact H0 | qdec]).
  assert (Hm2 : 0 <= t2 * 2) by (apply Qmult_le_0_compat; [exact H0' | qdec]).
  apply Qle_bool_iff in Hm1, Hm2. rewrite Hm1, Hm2.
  assert (Hf : (Qfloor (t1 * 2) <= Qfloor (t2 * 2))%Z).
  { apply Qfloor_resp_le. apply Qmult_le_compat_r; [exact H12 | qdec]. }
  lia.
Qed.

(** Beyond the stability threshold the tenure and PDI blocks no longer
    depend on the tenure, and the training block only grows with it. *)
Lemma score_blocos_acima_de_2 (e : Employee) (t : Q) : 2 <= t ->
  score_tempo_casa (set_tempo_casa e t) = 0 /\
  score_pdi (set_tempo_casa e t) = score_pdi (set_tempo_casa e 2) /\
  score_treinamentos (set_tempo_casa e t) =
    inject_Z (Z.min (Z.max 0 (treinamentos_esperados t - num_treinamentos e) * 20) 50)
    * peso_treinamentos SCORING_CONFIG.
Proof.
  intro Ht. unfold score_tempo_casa, score_pdi, score_treinamentos. simpl.
  rewrite !(Qltb_false_above t) by (exact Ht || reflexivity).
  split; [reflexivity|]. split; [|reflexivity].
  destruct (negb (participou_pdi e)); reflexivity.
Qed.

Lemma calcular_score_risco_tempo_nao_decrescente (e : Employee) (t1 t2 : Q)
  (H1 : 2 <= t1) (H12 : t1 <= t2) :
  calcular_score_risco (set_tempo_casa e t1) <=
  calcular_score_risco (set_tempo_casa e t2).
Proof.
  assert (H2 : 2 <= t2) by exact (Qle_trans _ _ _ H1 H12).
  destruct (score_blocos_acima_de_2 e t1 H1) as (A1 & B1 & C1).
  destruct (score_blocos_acima_de_2 e t2 H2) as (A2 & B2 & C2).
  unfold calcular_score_risco. apply py_minQ_mono.
  rewrite A1, A2, B1, B2, C1, C2.
  apply Qplus_le_compat; [|apply Qle_refl].
  apply Qplus_le_compat; [|apply Qle_refl].
  apply Qplus_le_compat; [apply Qle_refl|].
  apply Qmult_le_compat_r; [|qdec].
  apply inject_Z_mono.
  assert (Hm : (treinamentos_esperados t1 <= treinamentos_esperados t2)%Z).
  { apply treinamentos_esperados_mono; [|exact H12].
    apply Qle_trans with 2; [qdec | exact H1]. }
  lia.
Qed.

(** C4 (amended): for tenures beyond the stability threshold of 2 years
    the score is not non-increasing but non-decreasing in [tempo_casa]:
    the tenure block is 0 and the PDI block constant there, while the
    expected number of trainings [max(1, int(2 * tempo_casa))] grows with
    the tenure. *)
Theorem calcular_score_risco_tempo_acima_estavel (e : Employee) (t1 t2 : Q)
  (H1 : tempo_casa_estavel SCORING_CONFIG <= t1) (H12 : t1 <= t2) :
  calcular_score_risco (set_tempo_casa e t1) <=
  calcular_score_risco (set_tempo_casa e t2).
Proof. exact (calcular_score_risco_tempo_nao_decrescente e t1 t2 H1 H12). Qed.

Lemma calcular_score_risco_tempo_acima_estavel_witness :
  tempo_casa_estavel SCORING_CONFIG <= 2 /\ 2 <= 3 /\
  calcular_score_risco (set_tempo_casa (mk_employee "Ana" "TI" "Dev" 2 true 4 0) 2)
  <= calcular_score_risco (set_tempo_casa (mk_employee "Ana" "TI" "Dev" 2 true 4 0) 3).
Proof.
  split; [qdec|]. split; [qdec|].
  apply calcular_score_risco_tempo_acima_estavel; qdec.
Defined.

(** C4 counterexample: an employee with PDI, 4 trainings and no absences
    scores 0 at 2 years of tenure and 6 at 3 years (3 years expect 6
    trainings, a deficit of 2, so 40 * 0.15 points). *)
Lemma calcular_score_risco_tempo_contraexemplo :
  2 <= 2 /\ 2 <= 3 /\
  calcular_score_risco (set_tempo_casa (mk_employee "Ana" "TI" "Dev" 2 true 4 0) 2) == 0 /\
  calcular_score_risco (set_tempo_casa (mk_employee "Ana" "TI" "Dev" 2 true 4 0) 3) == 6 /\
  calcular_score_risco (set_tempo_casa (mk_employee "Ana" "TI" "Dev" 2 true 4 0) 2) <
  calcular_score_risco (set_tempo_casa (mk_employee "Ana" "TI" "Dev" 2 true 4 0) 3).
Proof.
  split; [qdec|]. split; [qdec|]. split; [reflexivity|]. split; [reflexivity|].
  apply Qltb_true_iff. reflexivity.
Qed.

(** C5 counterexample: the worked example is neither clamped to 100 nor
    classified High. *)
Lemma exemplo_7_anos_contraexemplo :
  ~ (calcular_score_risco exemplo_7_anos == 100) /\
  get_risk_level (calcular_score_risco exemplo_7_anos) <> Alto.
Proof. split; vm_compute; discriminate. Qed.

(** C5 (amended): for 7 years of tenure, no PDI, 0 trainings and 50
    absences the code adds 0 (tenure), 60 * 0.15 = 9 (PDI), 50 * 0.15 =
    7.5 (training deficit capped at 50), 60 * 0.10 = 6 (absences capped
    at 60), with no LinkedIn, flat or combination bonus: the score is
    22.5, below the clamp, and [get_risk_level] classifies it Baixo
    (Low). *)
Theorem exemplo_7_anos_score :
  score_tempo_casa exemplo_7_anos == 0 /\
  score_pdi exemplo_7_anos == 9 /\
  score_treinamentos exemplo_7_anos == 15 # 2 /\
  score_ausencias exemplo_7_anos == 6 /\
  score_linkedin exemplo_7_anos == 0 /\
  calcular_score_risco exemplo_7_anos == 45 # 2 /\
  get_risk_level (calcular_score_risco exemplo_7_anos) = Baixo.
Proof. vm_compute. repeat split; reflexivity. Qed.

Lemma fatores_tempo_vazio (e : Employee) :
  fatores_tempo e = [] -> Qle_bool 2 (tempo_casa e) = true.
Proof.
  unfold fatores_tempo. simpl.
  destruct (Qltb (tempo_casa e) (25 # 100)); [discriminate|].
  destruct (Qltb (tempo_casa e) 1); [discriminate|].
  destruct (Qltb (tempo_casa e) 2) eqn:E; [discriminate|].
  intros _. apply Qltb_false_iff in E. apply Qle_bool_iff. exact E.
Qed.

Lemma fatores_pdi_vazio (e : Employee) :
  fatores_pdi e = [] -> participou_pdi e = true.
Proof.
  unfold fatores_pdi. destruct (participou_pdi e); [reflexivity|]. simpl.
  destruct (Qltb _ (1 # 2)); [discriminate|].
  destruct (Qltb _ 1); discriminate.
Qed.

Lemma fatores_ausencias_vazio (e : Employee) :
  fatores_ausencias e = [] -> Z.leb (num_ausencias e) 3 = true.
Proof.
  unfold fatores_ausencias. simpl.
  destruct (Z.ltb 8 (num_ausencias e)); [discriminate|].
  destruct (Z.ltb 3 (num_ausencias e)) eqn:E; [discriminate|].
  intros _. apply Z.ltb_ge in E. apply Z.leb_le. exact E.
Qed.

(** C6 counterexample: no record makes [identificar_fatores_risco]
    return the empty list, in particular not the stable record of the
    claim (long tenure, PDI, enough trainings, few absences). *)
Lemma identificar_fatores_risco_nunca_vazio_contraexemplo :
  identificar_fatores_risco (mk_employee "Ana" "TI" "Dev" 3 true 6 2) =
    [msg_estavel] /\
  ~ (exists e : Employee, identificar_fatores_risco e = []).
Proof.
  split; [reflexivity|].
  intros [e He]. revert He. unfold identificar_fatores_risco.
  destruct (fatores_tempo e ++ fatores_pdi e ++ fatores_treinamentos e ++
            fatores_ausencias e ++ fatores_linkedin e)%list eqn:E;
    [|discriminate].
  apply app_eq_nil in E as [Et E]. apply app_eq_nil in E as [Ep E].
  apply app_eq_nil in E as [_ E]. apply app_eq_nil in E as [Ea _].
  rewrite (fatores_tempo_vazio e Et), (fatores_pdi_vazio e Ep),
    (fatores_ausencias_vazio e Ea).
  discriminate.
Qed.

(** C6 (amended): [identificar_fatores_risco] never returns an empty
    list.  When none of its risk conditions holds (which forces tenure
    >= 2, PDI done, trainings >= expected, absences <= 3 and no LinkedIn
    flag) it returns exactly ["Perfil estável - baixo risco de saída"];
    otherwise it returns the conditions found. *)
Theorem identificar_fatores_risco_nao_vazio (e : Employee) :
  identificar_fatores_risco e <> [] /\
  identificar_fatores_risco e =
    match (fatores_tempo e ++ fatores_pdi e ++ fatores_treinamentos e ++
           fatores_ausencias e ++ fatores_linkedin e)%list with
    | [] => [msg_estavel]
    | fatores => fatores
    end.
Proof.
  unfold identificar_fatores_risco.
  destruct (fatores_tempo e ++ fatores_pdi e ++ fatores_treinamentos e ++
            fatores_ausencias e ++ fatores_linkedin e)%list eqn:E;
    [|split; [discriminate | reflexivity]].
  apply app_eq_nil in E as [Et E]. apply app_eq_nil in E as [Ep E].
  apply app_eq_nil in E as [_ E]. apply app_eq_nil in E as [Ea _].
  rewrite (fatores_tempo_vazio e Et), (fatores_pdi_vazio e Ep),
    (fatores_ausencias_vazio e Ea).
  split; [discriminate | reflexivity].
Qed.

(** C7 counterexample: called with [None] as the factors list,
    [gerar_recomendacoes] raises (iterating [None] is a [TypeError]). *)
Lemma gerar_recomendacoes_none_contraexemplo :
  exists err, gerar_recomendacoes_py None exemplo_7_anos = inl err.
Proof. eexists. reflexivity. Qed.

(** C7 (amended): for every factors list (a [List[str]], the empty list
    included) [gerar_recomendacoes] returns without raising a non-empty
    list, which is the fallback ["Manter acompanhamento regular";
    "Reconhecer bom desempenho"] exactly when no factor matches any of
    the five categories.  A [None] factors value is outside its
    [List[str]] parameter type and raises [TypeError]. *)
Theorem gerar_recomendacoes_nao_vazio (fatores : list string) (e : Employee) :
  exists recs,
    gerar_recomendacoes_py (Some fatores) e = inr recs /\
    recs <> [] /\
    (recs = recomendacoes_padrao <->
     existsb (fun c => any_contains c fatores) categorias_recomendacao = false).
Proof.
  exists (gerar_recomendacoes fatores e). split; [reflexivity|].
  unfold gerar_recomendacoes, categorias_recomendacao. simpl.
  destruct (any_contains "tempo de casa" fatores), (any_contains "pdi" fatores),
    (any_contains "treinamentos" fatores), (any_contains "ausências" fatores),
    (any_contains "linkedin" fatores);
    simpl; (split; [discriminate|]); split; (reflexivity || discriminate).
Qed.

Lemma missing_columns_spec (cols : list string) (c : string) :
  In c (missing_columns cols) <-> In c required_columns /\ ~ In c cols.
Proof.
  unfold missing_columns. rewrite filter_In, negb_true_iff.
  split; intros [Hr Hc]; split; try exact Hr.
  - intro Hin. assert (existsb (String.eqb c) cols = true) as Ht.
    { apply existsb_exists. exists c. split; [exact Hin | apply String.eqb_refl]. }
    congruence.
  - destruct (existsb (String.eqb c) cols) eqn:E; [|reflexivity].
    apply existsb_exists in E as [x [Hx Hcx]].
    apply String.eqb_eq in Hcx. subst x. contradiction.
Qed.

(** C8: when a required column is missing after normalising the column
    labels (lower case, strip, spaces to underscores), the batch yields
    no employee and a single [st.error] whose message lists exactly the
    missing required columns; the rows are not looked at. *)
Theorem processar_planilha_colunas_ausentes (cell : Type)
  (py_str : cell -> string) (py_float : cell -> string + Q)
  (py_int : cell -> string + Z) (df : DataFrame cell)
  (Hmiss : missing_columns (map normalizar_coluna (df_columns df)) <> []) :
  processar_planilha cell py_str py_float py_int df =
    ([], [StError (msg_colunas_ausentes
                     (missing_columns (map normalizar_coluna (df_columns df))))]) /\
  (forall c, In c (missing_columns (map normalizar_coluna (df_columns df))) <->
             In c required_columns /\ ~ In c (map normalizar_coluna (df_columns df))).
Proof.
  split.
  - unfold processar_planilha.
    destruct (missing_columns (map normalizar_coluna (df_columns df))) eqn:E.
    + contradiction.
    + reflexivity.
  - intro c. apply missing_columns_spec.
Qed.

Lemma processar_planilha_colunas_ausentes_witness :
  missing_columns (map normalizar_coluna (df_columns planilha_sem_pdi)) =
    ["participou_pdi"; "num_ausencias"]%string /\
  TextCells.processar planilha_sem_pdi =
    ([], [StError "Colunas obrigatórias ausentes: participou_pdi, num_ausencias"%string]).
Proof.
  split; [reflexivity|].
  destruct (processar_planilha_colunas_ausentes string TextCells.str_of_text
              TextCells.float_of_text TextCells.int_of_text planilha_sem_pdi)
    as [H _]; [discriminate|].
  exact H.
Defined.

Section Linhas.

Variable cell : Type.
Variable py_str : cell -> string.
Variable py_float : cell -> string + Q.
Variable py_int : cell -> string + Z.



End Linhas.



Lemma score_linkedin_flags (e : Employee) :
  score_linkedin e =
    (if li_get ativo_recentemente (linkedin_data e)
     then 50 * peso_linkedin SCORING_CONFIG else 0) +
    (if li_get mudancas_frequentes (linkedin_data e)
     then 30 * peso_linkedin SCORING_CONFIG else 0).
Proof. unfold score_linkedin. destruct (linkedin_data e); reflexivity. Qed.

Ltac nao_e_cert :=
  repeat match goal with
  | |- context [if ?b then _ else _] => destruct b
  end;
  simpl; intuition discriminate.

Lemma cert_fora_de_outros (e : Employee) :
  ~ In msg_li_cert (fatores_tempo e ++ fatores_pdi e ++ fatores_treinamentos e ++
                    fatores_ausencias e)%list.
Proof.
  rewrite !in_app_iff.
  unfold fatores_tempo, fatores_pdi, fatores_treinamentos, fatores_ausencias,
    msg_deficit, msg_ausencias_excessivas, msg_ausencias_moderadas.
  nao_e_cert.
Qed.

Lemma cert_em_linkedin (e : Employee) :
  In msg_li_cert (fatores_linkedin e) <->
  li_get certificacoes_recentes (linkedin_data e) = true.
Proof.
  unfold fatores_linkedin. destruct (linkedin_data e) as [l|]; simpl;
    [|split; [contradiction | discriminate]].
  rewrite !in_app_iff.
  destruct (ativo_recentemente l), (mudancas_frequentes l),
    (certificacoes_recentes l); simpl; intuition discriminate.
Qed.

(** C10: the score reads only [tempo_casa], [participou_pdi],
    [num_treinamentos], [num_ausencias] and the LinkedIn flags
    [ativo_recentemente] and [mudancas_frequentes]: two records agreeing
    on these get the same score whatever their name, department, role,
    [certificacoes_recentes] flag or stored derived fields.  The
    [certificacoes_recentes] flag does show in the factors list: its
    factor is listed exactly when the flag is set. *)
Theorem calcular_score_risco_entradas (e1 e2 : Employee)
  (Ht : tempo_casa e1 = tempo_casa e2)
  (Hp : participou_pdi e1 = participou_pdi e2)
  (Htr : num_treinamentos e1 = num_treinamentos e2)
  (Ha : num_ausencias e1 = num_ausencias e2)
  (Hat : li_get ativo_recentemente (linkedin_data e1) =
         li_get ativo_recentemente (linkedin_data e2))
  (Hmu : li_get mudancas_frequentes (linkedin_data e1) =
         li_get mudancas_frequentes (linkedin_data e2)) :
  calcular_score_risco e1 = calcular_score_risco e2 /\
  (In msg_li_cert (identificar_fatores_risco e1) <->
   li_get certificacoes_recentes (linkedin_data e1) = true).
Proof.
  split.
  - unfold calcular_score_risco.
    rewrite !score_linkedin_flags, Hat, Hmu.
    unfold score_tempo_casa, score_pdi, score_treinamentos, score_ausencias.
    rewrite Ht, Hp, Htr, Ha. reflexivity.
  - unfold identificar_fatores_risco.
    rewrite <- (cert_em_linkedin e1).
    pose proof (cert_fora_de_outros e1) as Hout.
    destruct (fatores_tempo e1 ++ fatores_pdi e1 ++ fatores_treinamentos e1 ++
              fatores_ausencias e1 ++ fatores_linkedin e1)%list eqn:E.
    + apply app_eq_nil in E as [Et E]. apply app_eq_nil in E as [Ep E].
      apply app_eq_nil in E as [_ E]. apply app_eq_nil in E as [_ El].
      rewrite El. simpl.
      destruct (_ && _ && _)%bool; simpl; intuition discriminate.
    + rewrite <- E, !in_app_iff. rewrite !in_app_iff in Hout. tauto.
Qed.

Lemma calcular_score_risco_entradas_witness :
  calcular_score_risco perfil_a = calcular_score_risco perfil_b /\
  (In msg_li_cert (identificar_fatores_risco perfil_a) <->
   li_get certificacoes_recentes (linkedin_data perfil_a) = true).
Proof. apply calcular_score_risco_entradas; reflexivity. Defined.

(* ================================================================== *)
(** * Further properties of the engine and its callers *)

(** Turns the boolean comparisons of the source into hypotheses on Q. *)
Ltac q_hyps :=
  repeat match goal with
  | H : Qltb _ _ = true |- _ => apply Qltb_true_iff in H
  | H : Qltb _ _ = false |- _ => apply Qltb_false_iff in H
  | H : Qle_bool _ _ = true |- _ => apply Qle_bool_iff in H
  end.

Lemma py_maxQ_le (a b c : Q) : a <= c -> b <= c -> py_maxQ a b <= c.
Proof. intros Ha Hb. unfold py_maxQ. destruct (Qltb a b); assumption. Qed.

Lemma py_minQ_id (a : Q) : a <= 100 -> py_minQ a 100 = a.
Proof.
  intro H. unfold py_minQ.
  destruct (Qltb 100 a) eqn:E; [|reflexivity].
  apply Qltb_true_iff in E. exfalso. exact (Qlt_not_le _ _ E H).
Qed.

Lemma score_tempo_casa_le (e : Employee) : score_tempo_casa e <= 21.
Proof.
  unfold score_tempo_casa. simpl.
  destruct (Qltb (tempo_casa e) (25 # 100)) eqn:E1; [qdec|].
  destruct (Qltb (tempo_casa e) 1) eqn:E2.
  - q_hyps.
    assert (py_maxQ (40 - tempo_casa e * 20) 10 <= 35)
      by (apply py_maxQ_le; lra).
    lra.
  - destruct (Qltb (tempo_casa e) 2); qdec.
Qed.

Lemma score_pdi_le (e : Employee) : score_pdi e <= 9.
Proof.
  unfold score_pdi. destruct (negb _); [|qdec].
  destruct (Qltb _ (1 # 2)); [qdec|]. destruct (Qltb _ 1); qdec.
Qed.

Lemma score_treinamentos_le (e : Employee) : score_treinamentos e <= 15 # 2.
Proof.
  unfold score_treinamentos.
  destruct (Qltb _ (1 # 2)).
  - destruct (Z.eqb _ 0); qdec.
  - apply Qle_trans with (inject_Z 50 * peso_treinamentos SCORING_CONFIG); [|qdec].
    apply Qmult_le_compat_r; [apply inject_Z_mono; lia | qdec].
Qed.

Lemma score_ausencias_le (e : Employee) : score_ausencias e <= 6.
Proof.
  unfold score_ausencias.
  destruct (Z.ltb _ _); [|qdec].
  apply Qle_trans with (inject_Z 60 * peso_ausencias SCORING_CONFIG); [|qdec].
  apply Qmult_le_compat_r; [apply inject_Z_mono; lia | qdec].
Qed.

Lemma score_linkedin_le (e : Employee) : score_linkedin e <= 20.
Proof.
  rewrite score_linkedin_flags.
  destruct (li_get ativo_recentemente _), (li_get mudancas_frequentes _); qdec.
Qed.

(** The weighted sum of the five blocks, before [min(score, 100)]. *)
Lemma soma_blocos_le (e : Employee) :
  0 + score_tempo_casa e + score_pdi e + score_treinamentos e +
  score_ausencias e + score_linkedin e <= 127 # 2.
Proof.
  pose proof (score_tempo_casa_le e). pose proof (score_pdi_le e).
  pose proof (score_treinamentos_le e). pose proof (score_ausencias_le e).
  pose proof (score_linkedin_le e). lra.
Qed.

(** The score of every record is at most 63.5, so the final
    [min(score, 100)] never changes it: the score is exactly the sum of
    the five weighted blocks. *)
Theorem calcular_score_risco_max (e : Employee) :
  calcular_score_risco e <= 127 # 2 /\
  calcular_score_risco e =
    0 + score_tempo_casa e + score_pdi e + score_treinamentos e +
    score_ausencias e + score_linkedin e.
Proof.
  unfold calcular_score_risco.
  pose proof (soma_blocos_le e) as H.
  rewrite py_minQ_id by (apply Qle_trans with (1 := H); qdec).
  split; [exact H | reflexivity].
Qed.

(** Without the LinkedIn flags [ativo_recentemente] and
    [mudancas_frequentes] (in particular without any LinkedIn bundle),
    the score is at most 43.5, so [get_risk_level] never answers Alto. *)
Theorem calcular_score_risco_sem_linkedin (e : Employee)
  (Hat : li_get ativo_recentemente (linkedin_data e) = false)
  (Hmu : li_get mudancas_frequentes (linkedin_data e) = false) :
  calcular_score_risco e <= 87 # 2 /\
  get_risk_level (calcular_score_risco e) <> Alto.
Proof.
  assert (H : calcular_score_risco e <= 87 # 2).
  { unfold calcular_score_risco.
    rewrite (score_linkedin_flags e), Hat, Hmu.
    pose proof (score_tempo_casa_le e). pose proof (score_pdi_le e).
    pose proof (score_treinamentos_le e). pose proof (score_ausencias_le e).
    rewrite py_minQ_id; lra. }
  split; [exact H|].
  unfold get_risk_level.
  destruct (Qle_bool _ (risco_baixo _)); [discriminate|].
  destruct (Qle_bool (calcular_score_risco e) (risco_medio SCORING_CONFIG)) eqn:E;
    [discriminate|].
  exfalso. assert (H' : calcular_score_risco e <= risco_medio SCORING_CONFIG).
  { apply Qle_trans with (1 := H). qdec. }
  apply Qle_bool_iff in H'. congruence.
Qed.

Lemma calcular_score_risco_sem_linkedin_witness :
  li_get ativo_recentemente (linkedin_data exemplo_7_anos) = false /\
  li_get mudancas_frequentes (linkedin_data exemplo_7_anos) = false /\
  calcular_score_risco exemplo_7_anos <= 87 # 2 /\
  get_risk_level (calcular_score_risco exemplo_7_anos) <> Alto.
Proof.
  split; [reflexivity|]. split; [reflexivity|].
  apply calcular_score_risco_sem_linkedin; reflexivity.
Defined.

(** [get_risk_color] uses the same two bounds as [get_risk_level]: the
    colour of a score is the colour of its tier. *)
Theorem get_risk_color_nivel (score : Q) :
  get_risk_color score =
    match get_risk_level score with
    | Baixo => COLORS_success
    | Medio => COLORS_secondary
    | Alto => COLORS_warning
    end.
Proof.
  unfold get_risk_color, get_risk_level.
  destruct (Qle_bool score _); [reflexivity|].
  destruct (Qle_bool score _); reflexivity.
Qed.

Lemma calcular_score_risco_nonneg (e : Employee) : 0 <= calcular_score_risco e.
Proof.
  unfold calcular_score_risco.
  apply py_minQ_nonneg, soma_nonneg;
    auto using score_tempo_casa_nonneg, score_pdi_nonneg,
      score_treinamentos_nonneg, score_ausencias_nonneg, score_linkedin_nonneg.
Qed.

Lemma calcular_score_risco_le (e : Employee) : calcular_score_risco e <= 127 # 2.
Proof.
  unfold calcular_score_risco. pose proof (soma_blocos_le e) as H.
  rewrite py_minQ_id by (apply Qle_trans with (1 := H); qdec). exact H.
Qed.

Section Registros.

Variable cell : Type.
Variable py_str : cell -> string.
Variable py_float : cell -> string + Q.
Variable py_int : cell -> string + Z.

Lemma processar_linhas_origem (cols : list string) (rows : list (list cell))
  (r : Employee) :
  In r (fst (processar_linhas cell py_str py_float py_int cols rows)) ->
  exists row e, In row rows /\
    construir_employee cell py_str py_float py_int cols row = inr e /\
    r = pontuar e.
Proof.
  induction rows as [|row rows IH]; simpl; [contradiction|].
  destruct (processar_linhas _ _ _ _ cols rows) as [emps msgs] eqn:Hp.
  simpl in IH.
  destruct (construir_employee _ _ _ _ cols row) as [err|e] eqn:Hc; simpl.
  - intro H. destruct (IH H) as (row' & e' & Hin & Hc' & Hr).
    exists row', e'. auto.
  - intros [H|H].
    + exists row, e. auto.
    + destruct (IH H) as (row' & e' & Hin & Hc' & Hr). exists row', e'. auto.
Qed.

Lemma construir_employee_sem_linkedin (cols : list string) (row : list cell)
  (e : Employee) :
  construir_employee cell py_str py_float py_int cols row = inr e ->
  linkedin_data e = None.
Proof.
  unfold construir_employee, py_bind.
  repeat match goal with
  | |- context [match ?m with inl _ => _ | inr _ => _ end] => destruct m
  end; try discriminate.
  intro H. injection H as <-. reflexivity.
Qed.

End Registros.

(** Every record returned by [processar_planilha] carries derived
    fields consistent with its inputs: its score is
    [calcular_score_risco] of the record (between 0 and 63.5), its
    factors are [identificar_fatores_risco] of it and its actions are
    [gerar_recomendacoes] of those factors; no LinkedIn bundle is
    attached yet. *)
Theorem processar_planilha_registros (cell : Type)
  (py_str : cell -> string) (py_float : cell -> string + Q)
  (py_int : cell -> string + Z) (df : DataFrame cell) (r : Employee)
  (Hin : In r (fst (processar_planilha cell py_str py_float py_int df))) :
  score_risco r = calcular_score_risco r /\
  fatores_risco r = Some (identificar_fatores_risco r) /\
  acoes_recomendadas r = Some (gerar_recomendacoes (identificar_fatores_risco r) r) /\
  linkedin_data r = None /\
  0 <= score_risco r /\ score_risco r <= 127 # 2.
Proof.
  unfold processar_planilha in Hin.
  destruct (missing_columns _); [|contradiction].
  destruct (processar_linhas_origem _ _ _ _ _ _ _ Hin) as (row & e & _ & Hc & ->).
  pose proof (construir_employee_sem_linkedin _ _ _ _ _ _ _ Hc) as Hl.
  assert (Hs : score_risco (pontuar e) = calcular_score_risco (pontuar e))
    by reflexivity.
  split; [exact Hs|]. split; [reflexivity|]. split; [reflexivity|].
  split; [exact Hl|]. rewrite Hs.
  split; [apply calcular_score_risco_nonneg | apply calcular_score_risco_le].
Qed.

Lemma processar_planilha_registros_witness :
  In (pontuar (mk_employee "Ana" "TI" "Dev" 3 true 6 2))
     (fst (TextCells.processar
             {| df_columns := colunas_completas;
                df_rows := [linha_ana] ++ linha_bia :: [linha_caio] |})) /\
  score_risco (pontuar (mk_employee "Ana" "TI" "Dev" 3 true 6 2)) =
    calcular_score_risco (pontuar (mk_employee "Ana" "TI" "Dev" 3 true 6 2)).
Proof.
  assert (H : In (pontuar (mk_employee "Ana" "TI" "Dev" 3 true 6 2))
     (fst (TextCells.processar
             {| df_columns := colunas_completas;
                df_rows := [linha_ana] ++ linha_bia :: [linha_caio] |})))
    by (vm_compute; left; reflexivity).
  split; [exact H|].
  exact (proj1 (processar_planilha_registros string TextCells.str_of_text
                  TextCells.float_of_text TextCells.int_of_text _ _ H)).
Defined.

(** Attaching the result of [processar_pdf_linkedin] to a record that
    comes from the batch (no bundle yet, score consistent) never lowers
    its score; a result with an error, or without extracted text, leaves
    the record unchanged. *)
Theorem anexar_pdf_linkedin_score (e : Employee) (r : PdfLinkedin)
  (Hl : linkedin_data e = None)
  (Hs : score_risco e = calcular_score_risco e) :
  score_risco e <= score_risco (fst (anexar_pdf_linkedin e r)) /\
  (snd (anexar_pdf_linkedin e r) = false -> fst (anexar_pdf_linkedin e r) = e).
Proof.
  unfold anexar_pdf_linkedin.
  destruct (pl_tem_erro r); [split; [apply Qle_refl | reflexivity]|].
  destruct (negb _); [split; [apply Qle_refl | reflexivity]|].
  split; [|discriminate]. simpl. rewrite Hs.
  unfold calcular_score_risco.
  pose proof (soma_blocos_le e) as H1.
  pose proof (soma_blocos_le (set_linkedin e (Some (pl_flags r)))) as H2.
  rewrite !py_minQ_id by (eapply Qle_trans; [eassumption | qdec]).
  assert (H0 : score_linkedin e = 0) by (unfold score_linkedin; rewrite Hl; reflexivity).
  pose proof (score_linkedin_nonneg (set_linkedin e (Some (pl_flags r)))) as H3.
  change (score_tempo_casa (set_linkedin e (Some (pl_flags r)))) with (score_tempo_casa e).
  change (score_pdi (set_linkedin e (Some (pl_flags r)))) with (score_pdi e).
  change (score_treinamentos (set_linkedin e (Some (pl_flags r))))
    with (score_treinamentos e).
  change (score_ausencias (set_linkedin e (Some (pl_flags r)))) with (score_ausencias e).
  rewrite H0. lra.
Qed.

Lemma anexar_pdf_linkedin_score_witness :
  score_risco (pontuar exemplo_7_anos) <=
    score_risco (fst (anexar_pdf_linkedin (pontuar exemplo_7_anos) pdf_ativo)).
Proof. apply anexar_pdf_linkedin_score; reflexivity. Defined.

(* ------------------------------------------------------------------ *)
(** ** Substring search across the numbers of the factor messages *)

Local Open Scope string_scope.

Lemma prefix_separado (x n d b : string) :
  all_chars (fun c => negb (digito c)) n = true ->
  d <> "" -> all_chars digito d = true ->
  String.prefix n (x ++ d ++ b) = String.prefix n x.
Proof.
  intros Hn Hd Hdd. revert n Hn.
  induction x as [|c x IH]; intros n Hn.
  - destruct d as [|c0 d]; [contradiction|].
    destruct n as [|c' n]; [reflexivity|]. simpl.
    simpl in Hn, Hdd. destruct (ascii_dec c' c0) as [<-|]; [|reflexivity].
    destruct (digito c'); discriminate.
  - destruct n as [|c' n]; [reflexivity|]. simpl.
    simpl in Hn. apply andb_true_iff in Hn as [_ Hn].
    destruct (ascii_dec c' c); [apply IH; exact Hn | reflexivity].
Qed.

Lemma contains_digitos_l (n d b : string) :
  n <> "" -> all_chars (fun c => negb (digito c)) n = true ->
  all_chars digito d = true ->
  py_contains n (d ++ b) = py_contains n b.
Proof.
  intros Hne Hn. induction d as [|c d IH]; intro Hd; [reflexivity|].
  simpl in Hd. apply andb_true_iff in Hd as [Hc Hd].
  simpl. rewrite (IH Hd).
  destruct n as [|c' n]; [contradiction|]. simpl.
  destruct (ascii_dec c' c) as [<-|]; [|reflexivity].
  simpl in Hn. rewrite Hc in Hn. discriminate.
Qed.

Lemma contains_vazio (n : string) : n <> "" -> py_contains n "" = false.
Proof. destruct n; [contradiction | reflexivity]. Qed.

(** An occurrence of a pattern without digits cannot overlap a
    non-empty run of digits. *)
Lemma contains_separado (a n d b : string) :
  padrao_sem_digitos n = true ->
  d <> "" -> all_chars digito d = true ->
  py_contains n (a ++ d ++ b) = (py_contains n a || py_contains n b)%bool.
Proof.
  intros Hp Hd Hdd. unfold padrao_sem_digitos in Hp.
  apply andb_true_iff in Hp as [Hne Hn].
  apply negb_true_iff in Hne.
  assert (Hne' : n <> "") by (intro E; subst; discriminate).
  induction a as [|c a IH].
  - change ("" ++ d ++ b) with (d ++ b).
    rewrite contains_digitos_l by assumption.
    rewrite contains_vazio by assumption. reflexivity.
  - pose proof (prefix_separado (String c a) n d b Hn Hd Hdd) as Hp'.
    change (String c a ++ d ++ b) with (String c (a ++ d ++ b)) in Hp' |- *.
    change (py_contains n (String c (a ++ d ++ b))) with
      (String.prefix n (String c (a ++ d ++ b)) || py_contains n (a ++ d ++ b))%bool.
    change (py_contains n (String c a)) with
      (String.prefix n (String c a) || py_contains n a)%bool.
    rewrite IH, Hp', Bool.orb_assoc. reflexivity.
Qed.

Lemma py_lower_app (a b : string) : py_lower (a ++ b) = py_lower a ++ py_lower b.
Proof. induction a as [|c a IH]; simpl; [reflexivity | rewrite IH; reflexivity]. Qed.

Lemma py_lower_digitos (s : string) : all_chars digito s = true -> py_lower s = s.
Proof.
  induction s as [|c s IH]; simpl; [reflexivity|].
  intro H. apply andb_true_iff in H as [Hc H]. rewrite (IH H).
  unfold ascii_lower, digito in *.
  destruct (Nat.leb 65 (nat_of_ascii c) && Nat.leb (nat_of_ascii c) 90)%bool eqn:E;
    [|reflexivity].
  exfalso. apply andb_true_iff in E as [E1 E2].
  apply Nat.leb_le in E1, E2.
  apply orb_true_iff in Hc as [Hc|Hc].
  - apply Nat.eqb_eq in Hc. lia.
  - apply andb_true_iff in Hc as [_ Hc]. apply Nat.leb_le in Hc. lia.
Qed.

Lemma digito_de_algarismo (k : nat) :
  (k <= 9)%nat -> digito (ascii_of_nat (48 + k)%nat) = true.
Proof.
  intro Hk. unfold digito. rewrite nat_ascii_embedding by lia.
  apply orb_true_iff. right. apply andb_true_iff.
  split; apply Nat.leb_le; lia.
Qed.

Lemma digits_aux_digitos (f : nat) (n : Z) (acc : string) :
  all_chars digito acc = true ->
  all_chars digito (digits_aux f n acc) = true /\
  (acc <> "" \/ f <> O -> digits_aux f n acc <> "").
Proof.
  revert n acc. induction f as [|f IH]; intros n acc Hacc; simpl.
  - split; [exact Hacc|]. intros [H|H]; [exact H | contradiction].
  - assert (Hc : all_chars digito
                   (String (ascii_of_nat (48 + Z.to_nat (n mod 10))%nat) acc) = true).
    { cbn [all_chars]. rewrite Hacc, digito_de_algarismo; [reflexivity|].
      pose proof (Z.mod_pos_bound n 10). lia. }
    destruct (Z.div n 10 =? 0)%Z.
    + split; [exact Hc | discriminate].
    + destruct (IH (n / 10)%Z _ Hc) as [H1 H2]. split; [exact H1|].
      intros _. apply H2. left. discriminate.
Qed.

Lemma py_str_int_digitos (z : Z) :
  all_chars digito (py_str_int z) = true /\ py_str_int z <> "".
Proof.
  unfold py_str_int. destruct (z <? 0)%Z.
  - destruct (digits_aux_digitos (S (Z.to_nat (Z.log2 (- z)))) (- z) "" eq_refl)
      as [H1 _].
    simpl. split; [exact H1 | discriminate].
  - destruct (digits_aux_digitos (S (Z.to_nat (Z.log2 z))) z "" eq_refl) as [H1 H2].
    split; [exact H1|]. apply H2. right. discriminate.
Qed.

(** Search in [a ++ str(n) ++ b] for a pattern without digits. *)
Lemma contains_com_numero (n a b : string) (z : Z) :
  padrao_sem_digitos n = true ->
  py_contains n (py_lower (a ++ py_str_int z ++ b)) =
  (py_contains n (py_lower a) || py_contains n (py_lower b))%bool.
Proof.
  intro Hp. destruct (py_str_int_digitos z) as [Hd Hne].
  rewrite !py_lower_app, (py_lower_digitos _ Hd).
  apply contains_separado; assumption.
Qed.

Lemma contains_msg_deficit (n : string) (k esp : Z) :
  padrao_sem_digitos n = true ->
  py_contains n (py_lower (msg_deficit k esp)) =
  (py_contains n (py_lower "Déficit de treinamentos: ") ||
   (py_contains n (py_lower " realizados de ") ||
    py_contains n (py_lower " esperados")))%bool.
Proof.
  intro Hp. unfold msg_deficit.
  rewrite contains_com_numero by exact Hp.
  rewrite contains_com_numero by exact Hp. reflexivity.
Qed.

Lemma contains_msg_ausencias_excessivas (n : string) (k : Z) :
  padrao_sem_digitos n = true ->
  py_contains n (py_lower (msg_ausencias_excessivas k)) =
  (py_contains n (py_lower "Ausências excessivas (") ||
   (py_contains n (py_lower " faltas - acima do limite de ") ||
    py_contains n (py_lower ")")))%bool.
Proof.
  intro Hp. unfold msg_ausencias_excessivas.
  rewrite contains_com_numero by exact Hp.
  rewrite contains_com_numero by exact Hp. reflexivity.
Qed.

Lemma contains_msg_ausencias_moderadas (n : string) (k : Z) :
  padrao_sem_digitos n = true ->
  py_contains n (py_lower (msg_ausencias_moderadas k)) =
  (py_contains n (py_lower "Ausências moderadas (") ||
   py_contains n (py_lower " faltas - monitorar)"))%bool.
Proof.
  intro Hp. unfold msg_ausencias_moderadas.
  rewrite contains_com_numero by exact Hp. reflexivity.
Qed.

Local Close Scope string_scope.

(* ------------------------------------------------------------------ *)
(** ** Which factor messages each recommendation category matches *)

Local Open Scope string_scope.

Ltac busca_em_fatores :=
  cbv zeta;
  repeat match goal with
  | |- context [if ?b then _ else _] => destruct b
  end;
  unfold any_contains; cbn [existsb];
  rewrite ?contains_msg_deficit, ?contains_msg_ausencias_excessivas,
    ?contains_msg_ausencias_moderadas by (vm_compute; reflexivity);
  vm_compute; reflexivity.

Lemma any_contains_identificar (n : string) (e : Employee) :
  any_contains n [msg_estavel] = false ->
  any_contains n (identificar_fatores_risco e) =
  (any_contains n (fatores_tempo e) || (any_contains n (fatores_pdi e) ||
   (any_contains n (fatores_treinamentos e) ||
    (any_contains n (fatores_ausencias e) || any_contains n (fatores_linkedin e)))))%bool.
Proof.
  intro Hest.
  assert (Hpre : any_contains n (fatores_tempo e ++ fatores_pdi e ++
                   fatores_treinamentos e ++ fatores_ausencias e ++
                   fatores_linkedin e)%list =
    (any_contains n (fatores_tempo e) || (any_contains n (fatores_pdi e) ||
     (any_contains n (fatores_treinamentos e) ||
      (any_contains n (fatores_ausencias e) || any_contains n (fatores_linkedin e)))))%bool)
    by (unfold any_contains; rewrite !existsb_app; reflexivity).
  rewrite <- Hpre. unfold identificar_fatores_risco.
  destruct (fatores_tempo e ++ fatores_pdi e ++ fatores_treinamentos e ++
            fatores_ausencias e ++ fatores_linkedin e)%list; [|reflexivity].
  destruct (_ && _ && _)%bool; [exact Hest | reflexivity].
Qed.

Lemma busca_tempo_tempo (e : Employee) :
  any_contains "tempo de casa" (fatores_tempo e) =
    false.
Proof. unfold fatores_tempo. busca_em_fatores. Qed.

Lemma busca_tempo_pdi (e : Employee) :
  any_contains "tempo de casa" (fatores_pdi e) =
    false.
Proof. unfold fatores_pdi. busca_em_fatores. Qed.

Lemma busca_tempo_trein (e : Employee) :
  any_contains "tempo de casa" (fatores_treinamentos e) =
    false.
Proof. unfold fatores_treinamentos. busca_em_fatores. Qed.

Lemma busca_tempo_aus (e : Employee) :
  any_contains "tempo de casa" (fatores_ausencias e) =
    false.
Proof. unfold fatores_ausencias. busca_em_fatores. Qed.

Lemma busca_tempo_li (e : Employee) :
  any_contains "tempo de casa" (fatores_linkedin e) =
    false.
Proof.
  unfold fatores_linkedin. destruct (linkedin_data e) as [l|]; [|reflexivity].
  cbn [li_get]. destruct (ativo_recentemente l), (mudancas_frequentes l),
    (certificacoes_recentes l); vm_compute; reflexivity.
Qed.

Lemma busca_tempo (e : Employee) :
  any_contains "tempo de casa" (identificar_fatores_risco e) =
  (any_contains "tempo de casa" (fatores_tempo e) || (any_contains "tempo de casa" (fatores_pdi e) ||
   (any_contains "tempo de casa" (fatores_treinamentos e) ||
    (any_contains "tempo de casa" (fatores_ausencias e) || any_contains "tempo de casa" (fatores_linkedin e)))))%bool.
Proof. apply any_contains_identificar. vm_compute. reflexivity. Qed.

Lemma busca_pdi_tempo (e : Employee) :
  any_contains "pdi" (fatores_tempo e) =
    false.
Proof. unfold fatores_tempo. busca_em_fatores. Qed.

Lemma busca_pdi_pdi (e : Employee) :
  any_contains "pdi" (fatores_pdi e) =
    negb (participou_pdi e).
Proof. unfold fatores_pdi. busca_em_fatores. Qed.

Lemma busca_pdi_trein (e : Employee) :
  any_contains "pdi" (fatores_treinamentos e) =
    false.
Proof. unfold fatores_treinamentos. busca_em_fatores. Qed.

Lemma busca_pdi_aus (e : Employee) :
  any_contains "pdi" (fatores_ausencias e) =
    false.
Proof. unfold fatores_ausencias. busca_em_fatores. Qed.

Lemma busca_pdi_li (e : Employee) :
  any_contains "pdi" (fatores_linkedin e) =
    false.
Proof.
  unfold fatores_linkedin. destruct (linkedin_data e) as [l|]; [|reflexivity].
  cbn [li_get]. destruct (ativo_recentemente l), (mudancas_frequentes l),
    (certificacoes_recentes l); vm_compute; reflexivity.
Qed.

Lemma busca_pdi (e : Employee) :
  any_contains "pdi" (identificar_fatores_risco e) =
  (any_contains "pdi" (fatores_tempo e) || (any_contains "pdi" (fatores_pdi e) ||
   (any_contains "pdi" (fatores_treinamentos e) ||
    (any_contains "pdi" (fatores_ausencias e) || any_contains "pdi" (fatores_linkedin e)))))%bool.
Proof. apply any_contains_identificar. vm_compute. reflexivity. Qed.

Lemma busca_trein_tempo (e : Employee) :
  any_contains "treinamentos" (fatores_tempo e) =
    false.
Proof. unfold fatores_tempo. busca_em_fatores. Qed.

Lemma busca_trein_pdi (e : Employee) :
  any_contains "treinamentos" (fatores_pdi e) =
    false.
Proof. unfold fatores_pdi. busca_em_fatores. Qed.

Lemma busca_trein_trein (e : Employee) :
  any_contains "treinamentos" (fatores_treinamentos e) =
    (Z.ltb (num_treinamentos e) (treinamentos_esperados (tempo_casa e)) &&
     negb (Qltb (tempo_casa e) (1 # 2)))%bool.
Proof. unfold fatores_treinamentos. busca_em_fatores. Qed.

Lemma busca_trein_aus (e : Employee) :
  any_contains "treinamentos" (fatores_ausencias e) =
    false.
Proof. unfold fatores_ausencias. busca_em_fatores. Qed.

Lemma busca_trein_li (e : Employee) :
  any_contains "treinamentos" (fatores_linkedin e) =
    false.
Proof.
  unfold fatores_linkedin. destruct (linkedin_data e) as [l|]; [|reflexivity].
  cbn [li_get]. destruct (ativo_recentemente l), (mudancas_frequentes l),
    (certificacoes_recentes l); vm_compute; reflexivity.
Qed.

Lemma busca_trein (e : Employee) :
  any_contains "treinamentos" (identificar_fatores_risco e) =
  (any_contains "treinamentos" (fatores_tempo e) || (any_contains "treinamentos" (fatores_pdi e) ||
   (any_contains "treinamentos" (fatores_treinamentos e) ||
    (any_contains "treinamentos" (fatores_ausencias e) || any_contains "treinamentos" (fatores_linkedin e)))))%bool.
Proof. apply any_contains_identificar. vm_compute. reflexivity. Qed.

Lemma busca_aus_tempo (e : Employee) :
  any_contains "ausências" (fatores_tempo e) =
    false.
Proof. unfold fatores_tempo. busca_em_fatores. Qed.

Lemma busca_aus_pdi (e : Employee) :
  any_contains "ausências" (fatores_pdi e) =
    false.
Proof. unfold fatores_pdi. busca_em_fatores. Qed.

Lemma busca_aus_trein (e : Employee) :
  any_contains "ausências" (fatores_treinamentos e) =
    false.
Proof. unfold fatores_treinamentos. busca_em_fatores. Qed.

Lemma busca_aus_aus (e : Employee) :
  any_contains "ausências" (fatores_ausencias e) =
    (Z.ltb (ausencias_critico SCORING_CONFIG) (num_ausencias e) ||
     Z.ltb 3 (num_ausencias e))%bool.
Proof. unfold fatores_ausencias. busca_em_fatores. Qed.

Lemma busca_aus_li (e : Employee) :
  any_contains "ausências" (fatores_linkedin e) =
    false.
Proof.
  unfold fatores_linkedin. destruct (linkedin_data e) as [l|]; [|reflexivity].
  cbn [li_get]. destruct (ativo_recentemente l), (mudancas_frequentes l),
    (certificacoes_recentes l); vm_compute; reflexivity.
Qed.

Lemma busca_aus (e : Employee) :
  any_contains "ausências" (identificar_fatores_risco e) =
  (any_contains "ausências" (fatores_tempo e) || (any_contains "ausências" (fatores_pdi e) ||
   (any_contains "ausências" (fatores_treinamentos e) ||
    (any_contains "ausências" (fatores_ausencias e) || any_contains "ausências" (fatores_linkedin e)))))%bool.
Proof. apply any_contains_identificar. vm_compute. reflexivity. Qed.

Lemma busca_li_tempo (e : Employee) :
  any_contains "linkedin" (fatores_tempo e) =
    false.
Proof. unfold fatores_tempo. busca_em_fatores. Qed.

Lemma busca_li_pdi (e : Employee) :
  any_contains "linkedin" (fatores_pdi e) =
    false.
Proof. unfold fatores_pdi. busca_em_fatores. Qed.

Lemma busca_li_trein (e : Employee) :
  any_contains "linkedin" (fatores_treinamentos e) =
    false.
Proof. unfold fatores_treinamentos. busca_em_fatores. Qed.

Lemma busca_li_aus (e : Employee) :
  any_contains "linkedin" (fatores_ausencias e) =
    false.
Proof. unfold fatores_ausencias. busca_em_fatores. Qed.

Lemma busca_li_li (e : Employee) :
  any_contains "linkedin" (fatores_linkedin e) =
    (li_get ativo_recentemente (linkedin_data e) ||
     (li_get mudancas_frequentes (linkedin_data e) ||
      li_get certificacoes_recentes (linkedin_data e)))%bool.
Proof.
  unfold fatores_linkedin. destruct (linkedin_data e) as [l|]; [|reflexivity].
  cbn [li_get]. destruct (ativo_recentemente l), (mudancas_frequentes l),
    (certificacoes_recentes l); vm_compute; reflexivity.
Qed.

Lemma busca_li (e : Employee) :
  any_contains "linkedin" (identificar_fatores_risco e) =
  (any_contains "linkedin" (fatores_tempo e) || (any_contains "linkedin" (fatores_pdi e) ||
   (any_contains "linkedin" (fatores_treinamentos e) ||
    (any_contains "linkedin" (fatores_ausencias e) || any_contains "linkedin" (fatores_linkedin e)))))%bool.
Proof. apply any_contains_identificar. vm_compute. reflexivity. Qed.

Local Close Scope string_scope.

Local Open Scope string_scope.

Lemma in_existsb_eqb (x : string) (l : list string) :
  In x l <-> existsb (String.eqb x) l = true.
Proof.
  rewrite existsb_exists. split.
  - intro H. exists x. split; [exact H | apply String.eqb_refl].
  - intros [y [Hy Heq]]. apply String.eqb_eq in Heq. subst y. exact Hy.
Qed.

Lemma ausencias_ltb_critico (a : Z) :
  (Z.ltb (ausencias_critico SCORING_CONFIG) a || Z.ltb 3 a)%bool = Z.ltb 3 a.
Proof.
  change (ausencias_critico SCORING_CONFIG) with 8%Z.
  destruct (Z.ltb 3 a) eqn:E3; [apply orb_true_r|].
  rewrite orb_false_r. apply Z.ltb_ge in E3. apply Z.ltb_ge. lia.
Qed.

(** Rewrites the five category tests of [gerar_recomendacoes], applied to
    the factors of [identificar_fatores_risco], into tests on the fields. *)
Ltac reduz_categorias :=
  unfold gerar_recomendacoes;
  rewrite ?busca_tempo, ?busca_pdi, ?busca_trein, ?busca_aus, ?busca_li;
  rewrite ?busca_tempo_tempo, ?busca_tempo_pdi, ?busca_tempo_trein,
    ?busca_tempo_aus, ?busca_tempo_li,
    ?busca_pdi_tempo, ?busca_pdi_pdi, ?busca_pdi_trein, ?busca_pdi_aus,
    ?busca_pdi_li,
    ?busca_trein_tempo, ?busca_trein_pdi, ?busca_trein_trein,
    ?busca_trein_aus, ?busca_trein_li,
    ?busca_aus_tempo, ?busca_aus_pdi, ?busca_aus_trein, ?busca_aus_aus,
    ?busca_aus_li,
    ?busca_li_tempo, ?busca_li_pdi, ?busca_li_trein, ?busca_li_aus,
    ?busca_li_li;
  rewrite ?ausencias_ltb_critico;
  cbn [orb].

Ltac casos_campos e :=
  destruct (participou_pdi e),
    (Z.ltb (num_treinamentos e) (treinamentos_esperados (tempo_casa e))),
    (Qltb (tempo_casa e) (1 # 2)), (Z.ltb 3 (num_ausencias e)),
    (li_get ativo_recentemente (linkedin_data e)),
    (li_get mudancas_frequentes (linkedin_data e)),
    (li_get certificacoes_recentes (linkedin_data e)).

(** [gerar_recomendacoes(employee.fatores_risco, employee)], as the upload
    flows call it, never recommends the mentoring and check-in actions:
    no message of [identificar_fatores_risco] contains "tempo de casa". *)
Theorem recomendacoes_sem_mentoria (e : Employee) :
  ~ In "Implementar programa de mentoria para novos colaboradores"
      (gerar_recomendacoes (identificar_fatores_risco e) e) /\
  ~ In "Agendar check-ins regulares com gestor direto"
      (gerar_recomendacoes (identificar_fatores_risco e) e).
Proof.
  rewrite !in_existsb_eqb. reduz_categorias. casos_campos e;
    vm_compute; split; discriminate.
Qed.

(** On the factors computed for an employee, the PDI actions are
    recommended exactly when the employee did not take part in a PDI. *)
Theorem recomendacoes_pdi (e : Employee) :
  In "Agendar reunião de PDI e definir metas de carreira"
    (gerar_recomendacoes (identificar_fatores_risco e) e) <->
  participou_pdi e = false.
Proof.
  rewrite in_existsb_eqb. reduz_categorias. casos_campos e;
    vm_compute; intuition congruence.
Qed.

(** On the factors computed for an employee, the training actions are
    recommended exactly when the employee has at least half a year of
    tenure and fewer trainings than expected for it; a newcomer with no
    training at all gets the factor "Nenhum treinamento realizado", which
    does not contain "treinamentos". *)
Theorem recomendacoes_treinamentos (e : Employee) :
  In "Oferecer trilha de desenvolvimento personalizada"
    (gerar_recomendacoes (identificar_fatores_risco e) e) <->
  (1 # 2) <= tempo_casa e /\
  (num_treinamentos e < treinamentos_esperados (tempo_casa e))%Z.
Proof.
  rewrite in_existsb_eqb, <- Qltb_false_iff, <- Z.ltb_lt.
  reduz_categorias. casos_campos e; vm_compute; intuition congruence.
Qed.

(** On the factors computed for an employee, the absence actions are
    recommended exactly when the employee has more than 3 absences. *)
Theorem recomendacoes_ausencias (e : Employee) :
  In "Realizar conversa individual para entender causas"
    (gerar_recomendacoes (identificar_fatores_risco e) e) <->
  (3 < num_ausencias e)%Z.
Proof.
  rewrite in_existsb_eqb, <- Z.ltb_lt.
  reduz_categorias. casos_campos e; vm_compute; intuition congruence.
Qed.

(** On the factors computed for an employee, the LinkedIn actions are
    recommended exactly when one of the three LinkedIn flags is set. *)
Theorem recomendacoes_linkedin (e : Employee) :
  In "Conduzir pesquisa de satisfação confidencial"
    (gerar_recomendacoes (identificar_fatores_risco e) e) <->
  li_get ativo_recentemente (linkedin_data e) = true \/
  li_get mudancas_frequentes (linkedin_data e) = true \/
  li_get certificacoes_recentes (linkedin_data e) = true.
Proof.
  rewrite in_existsb_eqb.
  reduz_categorias. casos_campos e; vm_compute; intuition congruence.
Qed.

(** On the factors computed for an employee, the fallback pair of actions
    is returned exactly when the employee took part in a PDI, has no
    training deficit past half a year of tenure, at most 3 absences and
    no LinkedIn flag set. *)
Theorem recomendacoes_padrao_sse (e : Employee) :
  gerar_recomendacoes (identificar_fatores_risco e) e = recomendacoes_padrao <->
  participou_pdi e = true /\
  (tempo_casa e < 1 # 2 \/
   (treinamentos_esperados (tempo_casa e) <= num_treinamentos e)%Z) /\
  (num_ausencias e <= 3)%Z /\
  li_get ativo_recentemente (linkedin_data e) = false /\
  li_get mudancas_frequentes (linkedin_data e) = false /\
  li_get certificacoes_recentes (linkedin_data e) = false.
Proof.
  rewrite <- Qltb_true_iff, <- Z.ltb_ge, <- Z.ltb_ge.
  reduz_categorias. casos_campos e; vm_compute; intuition congruence.
Qed.

Local Close Scope string_scope.

(* ------------------------------------------------------------------ *)
(** ** Risk distribution and dashboard counters *)

Lemma risk_counts_acc (es : list Employee) (acc : RiskCounts) :
  fold_left (fun rc emp => conta_nivel rc (get_risk_level (score_risco emp))) es acc =
  {| rc_baixo := rc_baixo acc + List.length (filter (fun e =>
         match get_risk_level (score_risco e) with Baixo => true | _ => false end) es);
     rc_medio := rc_medio acc + List.length (filter (fun e =>
         match get_risk_level (score_risco e) with Medio => true | _ => false end) es);
     rc_alto := rc_alto acc + List.length (filter (fun e =>
         match get_risk_level (score_risco e) with Alto => true | _ => false end) es) |}.
Proof.
  revert acc. induction es as [|e es IH]; intro acc.
  - destruct acc; cbn. rewrite !Nat.add_0_r. reflexivity.
  - cbn [fold_left filter]. rewrite IH.
    destruct (get_risk_level (score_risco e)); cbn; f_equal; lia.
Qed.

Lemma filter_length_mono {A : Type} (f g : A -> bool) (l : list A) :
  (forall x, f x = true -> g x = true) ->
  (List.length (filter f l) <= List.length (filter g l))%nat.
Proof.
  intro Hfg. induction l as [|x l IH]; [reflexivity|]. cbn [filter].
  destruct (f x) eqn:Ef.
  - rewrite (Hfg x Ef). cbn. lia.
  - destruct (g x); cbn; lia.
Qed.

Lemma get_risk_level_alto (s : Q) :
  get_risk_level s = Alto <-> Qltb 55 s = true.
Proof.
  rewrite Qltb_true_iff. unfold get_risk_level. cbn [risco_baixo risco_medio SCORING_CONFIG].
  destruct (Qle_bool s 25) eqn:E1; [|destruct (Qle_bool s 55) eqn:E2].
  - apply Qle_bool_iff in E1. split; [discriminate|]. intro H. lra.
  - apply Qle_bool_iff in E2. split; [discriminate|]. intro H. lra.
  - rewrite <- Qltb_true_iff. unfold Qltb. rewrite E2. split; reflexivity.
Qed.

Lemma risk_counts_soma (es : list Employee) :
  (rc_baixo (risk_counts es) + rc_medio (risk_counts es) +
   rc_alto (risk_counts es) = List.length es)%nat.
Proof.
  unfold risk_counts. rewrite risk_counts_acc. cbn [rc_baixo rc_medio rc_alto].
  induction es as [|e es IH]; [reflexivity|]. cbn [filter List.length].
  destruct (get_risk_level (score_risco e)); cbn [List.length]; lia.
Qed.

(** The "Alto" slice of the distribution chart counts the scores above 55
    ([risco_medio]), while the dashboard's high-risk counter counts the
    scores above 60: the counter never exceeds the slice. *)
Theorem dashboard_high_risk_le_alto (es : list Employee) :
  rc_alto (risk_counts es) =
    List.length (filter (fun e => Qltb 55 (score_risco e)) es) /\
  (dashboard_high_risk es <= rc_alto (risk_counts es))%nat.
Proof.
  assert (Hslice : rc_alto (risk_counts es) =
      List.length (filter (fun e => Qltb 55 (score_risco e)) es)).
  { unfold risk_counts. rewrite risk_counts_acc. cbn [rc_alto]. cbn [Nat.add].
    f_equal. apply filter_ext. intro e.
    destruct (get_risk_level (score_risco e)) eqn:E;
      destruct (Qltb 55 (score_risco e)) eqn:E';
      try reflexivity;
      first [apply get_risk_level_alto in E | apply get_risk_level_alto in E'];
      congruence. }
  split; [exact Hslice|]. rewrite Hslice. unfold dashboard_high_risk.
  apply filter_length_mono. intros e H. apply Qltb_true_iff in H.
  apply Qltb_true_iff. lra.
Qed.

(* ------------------------------------------------------------------ *)
(** ** Department chart *)

Lemma dept_add_chave (d : string) (s : Q) (acc : list (string * list Q)) (k : string) :
  In k (map fst (dept_add d s acc)) <-> In k (map fst acc) \/ k = d.
Proof.
  induction acc as [|[k0 ss0] rest IH]; cbn [dept_add].
  - cbn. intuition congruence.
  - destruct (String.eqb_spec k0 d) as [->|Hne]; cbn [map fst In].
    + intuition congruence.
    + rewrite IH. tauto.
Qed.

Lemma dept_add_nodup (d : string) (s : Q) (acc : list (string * list Q)) :
  NoDup (map fst acc) -> NoDup (map fst (dept_add d s acc)).
Proof.
  induction acc as [|[k0 ss0] rest IH]; intro Hnd; cbn [dept_add].
  - constructor; [intros []|constructor].
  - inversion Hnd as [|x l Hk Hrest]; subst.
    destruct (String.eqb_spec k0 d) as [->|Hne]; cbn [map fst].
    + constructor; assumption.
    + constructor; [|exact (IH Hrest)].
      rewrite dept_add_chave. intros [H|H]; [exact (Hk H) | congruence].
Qed.

Lemma dept_add_par (d : string) (s : Q) (acc : list (string * list Q))
  (k : string) (ss : list Q) :
  NoDup (map fst acc) -> In (k, ss) (dept_add d s acc) ->
  (k <> d /\ In (k, ss) acc) \/
  (k = d /\ ((~ In d (map fst acc) /\ ss = [s]) \/
             exists ss0, In (d, ss0) acc /\ ss = (ss0 ++ [s])%list)).
Proof.
  induction acc as [|[k0 ss0] rest IH]; intros Hnd Hin; cbn [dept_add] in Hin.
  - destruct Hin as [Heq|[]]. inversion Heq; subst.
    right. split; [reflexivity|]. left. split; [intros []|reflexivity].
  - inversion Hnd as [|x l Hk Hrest]; subst.
    destruct (String.eqb_spec k0 d) as [->|Hne].
    + destruct Hin as [Heq|Hin].
      * inversion Heq; subst. right. split; [reflexivity|]. right.
        exists ss0. split; [left; reflexivity|reflexivity].
      * left. split; [|right; exact Hin].
        intros ->. apply Hk. apply (in_map fst) in Hin. exact Hin.
    + destruct Hin as [Heq|Hin].
      * inversion Heq; subst. left. split; [exact Hne|left; reflexivity].
      * destruct (IH Hrest Hin) as [[Hkd Hr]|[Hkd [[Hnot Hss]|[ss1 [Hr Hss]]]]].
        -- left. split; [exact Hkd|right; exact Hr].
        -- right. split; [exact Hkd|]. left. split; [|exact Hss].
           cbn [map fst In]. intros [H|H]; [congruence|exact (Hnot H)].
        -- right. split; [exact Hkd|]. right. exists ss1.
           split; [right; exact Hr|exact Hss].
Qed.

Lemma filter_vazio {A : Type} (f : A -> bool) (l : list A) :
  (forall x, In x l -> f x = false) -> filter f l = [].
Proof.
  induction l as [|x l IH]; intro H; [reflexivity|]. cbn [filter].
  rewrite (H x (or_introl eq_refl)). apply IH. intros y Hy. apply H. right. exact Hy.
Qed.

Lemma dept_data_inv (es p : list Employee) (acc : list (string * list Q)) :
  NoDup (map fst acc) ->
  (forall k, In k (map fst acc) <-> exists e, In e p /\ departamento e = k) ->
  (forall k ss, In (k, ss) acc ->
     ss = map score_risco (filter (fun e => String.eqb (departamento e) k) p)) ->
  let r := fold_left (fun dd emp => dept_add (departamento emp) (score_risco emp) dd)
             es acc in
  NoDup (map fst r) /\
  (forall k, In k (map fst r) <-> exists e, In e (p ++ es) /\ departamento e = k) /\
  (forall k ss, In (k, ss) r ->
     ss = map score_risco (filter (fun e => String.eqb (departamento e) k) (p ++ es))).
Proof.
  revert p acc. induction es as [|e es IH]; intros p acc Hnd Hk Hss; cbn zeta.
  - rewrite app_nil_r. cbn [fold_left]. auto.
  - cbn [fold_left]. replace (p ++ e :: es)%list with ((p ++ [e]) ++ es)%list
      by (rewrite <- app_assoc; reflexivity).
    apply IH.
    + apply dept_add_nodup. exact Hnd.
    + intro k. rewrite dept_add_chave, Hk. split.
      * intros [[e' [He' Hd]]|Hd].
        -- exists e'. split; [apply in_or_app; left; exact He'|exact Hd].
        -- exists e. split; [apply in_or_app; right; left; reflexivity|symmetry; exact Hd].
      * intros [e' [He' Hd]]. apply in_app_or in He'. destruct He' as [He'|[<-|[]]].
        -- left. exists e'. split; assumption.
        -- right. symmetry. exact Hd.
    + intros k ss Hin. rewrite filter_app, map_app. cbn [filter].
      destruct (dept_add_par _ _ _ _ _ Hnd Hin)
        as [[Hkd Hr]|[Hkd [[Hnot Hs]|[ss0 [Hr Hs]]]]].
      * rewrite (Hss k ss Hr).
        destruct (String.eqb_spec (departamento e) k) as [Heq|_]; [congruence|].
        rewrite app_nil_r. reflexivity.
      * subst k ss. rewrite String.eqb_refl.
        rewrite filter_vazio; [reflexivity|].
        intros x Hx. destruct (String.eqb_spec (departamento x) (departamento e))
          as [Heq|Hne]; [|reflexivity].
        exfalso. apply Hnot. apply Hk. exists x. split; assumption.
      * subst k ss. rewrite String.eqb_refl, (Hss _ _ Hr). reflexivity.
Qed.

Lemma dept_data_spec (es : list Employee) :
  NoDup (map fst (dept_data es)) /\
  (forall d, In d (map fst (dept_data es)) <-> exists e, In e es /\ departamento e = d) /\
  (forall d ss, In (d, ss) (dept_data es) ->
     ss = map score_risco (filter (fun e => String.eqb (departamento e) d) es)).
Proof.
  apply (dept_data_inv es [] []).
  - constructor.
  - intro k. cbn. split; [intros []|intros [e [[] _]]].
  - intros k ss [].
Qed.

(** [create_department_chart] groups the scores by department: the
    departments are distinct, they are exactly those of the employees,
    and each department's list holds the scores of its employees in the
    order of the input. *)
Theorem dept_data_grupos (es : list Employee) :
  NoDup (map fst (dept_data es)) /\
  (forall d, In d (map fst (dept_data es)) <-> exists e, In e es /\ departamento e = d) /\
  (forall d ss, In (d, ss) (dept_data es) ->
     ss = map score_risco (filter (fun e => String.eqb (departamento e) d) es)).
Proof. exact (dept_data_spec es). Qed.

(** In [create_department_chart] a department key is created only
    together with the append of a score, so no list of [dept_data] is
    empty: [len(scores)] in [sum(scores)/len(scores)] is at least 1 and
    the division never raises [ZeroDivisionError]. *)
Theorem dept_data_listas_nao_vazias (es : list Employee) (d : string) (ss : list Q) :
  In (d, ss) (dept_data es) -> (1 <= List.length ss)%nat.
Proof.
  intro Hin. destruct (dept_data_spec es) as [_ [Hk Hss]].
  rewrite (Hss d ss Hin).
  assert (Hd : In d (map fst (dept_data es))).
  { apply (in_map fst) in Hin. exact Hin. }
  apply Hk in Hd. destruct Hd as [e [He Hde]].
  assert (Hf : In e (filter (fun e => String.eqb (departamento e) d) es)).
  { apply filter_In. split; [exact He|]. apply String.eqb_eq. exact Hde. }
  destruct (filter (fun e => String.eqb (departamento e) d) es) as [|x l];
    [destruct Hf | cbn; lia].
Qed.

(* ------------------------------------------------------------------ *)
(** ** The stable profile and the score *)

Local Open Scope string_scope.

Lemma any_contains_app (n : string) (l1 l2 : list string) :
  any_contains n (l1 ++ l2)%list = (any_contains n l1 || any_contains n l2)%bool.
Proof. unfold any_contains. apply existsb_app. Qed.

Lemma estavel_fora_de_fatores_tempo (e : Employee) :
  any_contains "baixo risco" (fatores_tempo e) = false.
Proof. unfold fatores_tempo. busca_em_fatores. Qed.

Lemma estavel_fora_de_fatores_pdi (e : Employee) :
  any_contains "baixo risco" (fatores_pdi e) = false.
Proof. unfold fatores_pdi. busca_em_fatores. Qed.

Lemma estavel_fora_de_fatores_treinamentos (e : Employee) :
  any_contains "baixo risco" (fatores_treinamentos e) = false.
Proof. unfold fatores_treinamentos. busca_em_fatores. Qed.

Lemma estavel_fora_de_fatores_ausencias (e : Employee) :
  any_contains "baixo risco" (fatores_ausencias e) = false.
Proof. unfold fatores_ausencias. busca_em_fatores. Qed.

Lemma estavel_fora_de_fatores_linkedin (e : Employee) :
  any_contains "baixo risco" (fatores_linkedin e) = false.
Proof.
  unfold fatores_linkedin. destruct (linkedin_data e) as [l|]; [|reflexivity].
  destruct (ativo_recentemente l), (mudancas_frequentes l),
    (certificacoes_recentes l); vm_compute; reflexivity.
Qed.

Local Close Scope string_scope.

Lemma identificar_estavel_blocos (e : Employee) :
  identificar_fatores_risco e = [msg_estavel] ->
  fatores_tempo e = [] /\ fatores_pdi e = [] /\ fatores_treinamentos e = [] /\
  fatores_ausencias e = [] /\ fatores_linkedin e = [].
Proof.
  intro H.
  assert (Hpre : any_contains "baixo risco"%string
     (fatores_tempo e ++ fatores_pdi e ++ fatores_treinamentos e ++
      fatores_ausencias e ++ fatores_linkedin e)%list = false).
  { rewrite !any_contains_app, estavel_fora_de_fatores_tempo,
      estavel_fora_de_fatores_pdi, estavel_fora_de_fatores_treinamentos,
      estavel_fora_de_fatores_ausencias, estavel_fora_de_fatores_linkedin.
    reflexivity. }
  unfold identificar_fatores_risco in H.
  destruct (fatores_tempo e ++ fatores_pdi e ++ fatores_treinamentos e ++
            fatores_ausencias e ++ fatores_linkedin e)%list eqn:E.
  - apply app_eq_nil in E as [Et E]. apply app_eq_nil in E as [Ep E].
    apply app_eq_nil in E as [Etr E]. apply app_eq_nil in E as [Ea El].
    repeat split; assumption.
  - rewrite H in Hpre. vm_compute in Hpre. discriminate.
Qed.

Lemma score_tempo_casa_estavel (e : Employee) :
  2 <= tempo_casa e -> score_tempo_casa e = 0.
Proof.
  intro H. unfold score_tempo_casa. cbn [tempo_casa_critico tempo_casa_risco
    tempo_casa_estavel SCORING_CONFIG].
  destruct (Qltb (tempo_casa e) (25 # 100)) eqn:E1; q_hyps; [lra|].
  destruct (Qltb (tempo_casa e) 1) eqn:E2; q_hyps; [lra|].
  destruct (Qltb (tempo_casa e) 2) eqn:E3; q_hyps; [lra|reflexivity].
Qed.

Lemma score_treinamentos_sem_deficit (e : Employee) :
  2 <= tempo_casa e -> fatores_treinamentos e = [] -> score_treinamentos e == 0.
Proof.
  intros Htc Hf. unfold fatores_treinamentos in Hf. unfold score_treinamentos.
  cbn zeta in *.
  destruct (Qltb (tempo_casa e) (1 # 2)) eqn:E1; q_hyps; [lra|].
  destruct (Z.ltb (num_treinamentos e) (treinamentos_esperados (tempo_casa e))) eqn:E2;
    [discriminate|].
  apply Z.ltb_ge in E2.
  rewrite Z.max_l by lia. vm_compute. reflexivity.
Qed.

Lemma score_linkedin_sem_fatores (e : Employee) :
  fatores_linkedin e = [] -> score_linkedin e == 0.
Proof.
  unfold fatores_linkedin, score_linkedin. destruct (linkedin_data e) as [l|];
    [|reflexivity].
  destruct (ativo_recentemente l), (mudancas_frequentes l),
    (certificacoes_recentes l); try discriminate; reflexivity.
Qed.

(** The stable-profile verdict of [identificar_fatores_risco] and the
    score agree: a record whose only factor is "Perfil estável - baixo
    risco de saída" has risk score 0, hence level "Baixo". *)
Theorem perfil_estavel_score_zero (e : Employee) :
  identificar_fatores_risco e = [msg_estavel] ->
  calcular_score_risco e == 0 /\ get_risk_level (calcular_score_risco e) = Baixo.
Proof.
  intro H.
  destruct (identificar_estavel_blocos e H) as [Et [Ep [Etr [Ea El]]]].
  apply fatores_tempo_vazio in Et. apply Qle_bool_iff in Et.
  apply fatores_pdi_vazio in Ep. apply fatores_ausencias_vazio in Ea.
  apply Z.leb_le in Ea.
  assert (H1 : score_tempo_casa e = 0) by (apply score_tempo_casa_estavel; exact Et).
  assert (H2 : score_pdi e = 0) by (unfold score_pdi; rewrite Ep; reflexivity).
  assert (H3 : score_treinamentos e == 0)
    by (apply score_treinamentos_sem_deficit; assumption).
  assert (H4 : score_ausencias e = 0).
  { unfold score_ausencias. cbn [ausencias_critico SCORING_CONFIG].
    destruct (Z.ltb 8 (num_ausencias e)) eqn:E; [apply Z.ltb_lt in E; lia|reflexivity]. }
  assert (H5 : score_linkedin e == 0) by (apply score_linkedin_sem_fatores; exact El).
  assert (Hs : calcular_score_risco e == 0).
  { unfold calcular_score_risco. rewrite H1, H2, H4. rewrite py_minQ_id; lra. }
  split; [exact Hs|].
  unfold get_risk_level. cbn [risco_baixo SCORING_CONFIG].
  replace (Qle_bool (calcular_score_risco e) 25) with true; [reflexivity|].
  symmetry. apply Qle_bool_iff. lra.
Qed.

(* ------------------------------------------------------------------ *)
(** ** Exported level and rounded score *)

Lemma py_round1_dist (x : Q) :
  x - (1 # 20) <= py_round1 x <= x + (1 # 20).
Proof.
  unfold py_round1. cbn zeta.
  pose proof (Qfloor_le (x * 10)) as Hf1.
  pose proof (Qlt_floor (x * 10)) as Hf2. rewrite inject_Z_plus in Hf2.
  unfold Qdiv. change (/ 10) with (1 # 10).
  destruct (Qltb (x * 10 - inject_Z (Qfloor (x * 10))) (1 # 2)) eqn:E1; q_hyps.
  - split; lra.
  - destruct (Qltb (1 # 2) (x * 10 - inject_Z (Qfloor (x * 10)))) eqn:E2; q_hyps.
    + rewrite inject_Z_plus. change (inject_Z 1) with 1 in *. split; lra.
    + destruct (Z.even (Qfloor (x * 10))).
      * split; lra.
      * rewrite inject_Z_plus. change (inject_Z 1) with 1 in *. split; lra.
Qed.

Lemma get_risk_level_baixo_iff (s : Q) : get_risk_level s = Baixo <-> s <= 25.
Proof.
  unfold get_risk_level. cbn [risco_baixo risco_medio SCORING_CONFIG].
  destruct (Qle_bool s 25) eqn:E1.
  - apply Qle_bool_iff in E1. split; [intros _; exact E1|reflexivity].
  - split; [destruct (Qle_bool s 55); discriminate|].
    intro H. apply Qle_bool_iff in H. congruence.
Qed.

Lemma get_risk_level_medio_iff (s : Q) :
  get_risk_level s = Medio <-> 25 < s /\ s <= 55.
Proof.
  unfold get_risk_level. cbn [risco_baixo risco_medio SCORING_CONFIG].
  destruct (Qle_bool s 25) eqn:E1; [|destruct (Qle_bool s 55) eqn:E2].
  - apply Qle_bool_iff in E1. split; [discriminate|]. intros [H _]. lra.
  - apply Qle_bool_iff in E2. apply (f_equal negb) in E1.
    change (Qltb 25 s = true) in E1. apply Qltb_true_iff in E1.
    split; [intros _; split; assumption|reflexivity].
  - split; [discriminate|]. intros [_ H]. apply Qle_bool_iff in H. congruence.
Qed.

(** [export_to_json] rounds the score to one decimal but takes the level
    from the unrounded score: the exported level is the level of the
    exported score for every employee whose score is more than 0.05 away
    from both thresholds 25 and 55. *)
Theorem export_nivel_score_arredondado (emp : Employee) :
  ~ (25 - (1 # 20) <= score_risco emp <= 25 + (1 # 20)) ->
  ~ (55 - (1 # 20) <= score_risco emp <= 55 + (1 # 20)) ->
  get_risk_level (j_score_risco (linha_json emp)) = j_nivel_risco (linha_json emp).
Proof.
  intros H25 H55. cbn [linha_json j_score_risco j_nivel_risco].
  set (s := score_risco emp) in *.
  destruct (py_round1_dist s) as [Hlo Hhi].
  destruct (Qlt_le_dec 25 s) as [Hs25|Hs25].
  - assert (H25' : 25 + (1 # 20) < s).
    { apply Qnot_le_lt. intro H. apply H25. split; lra. }
    destruct (Qlt_le_dec 55 s) as [Hs55|Hs55].
    + assert (H55' : 55 + (1 # 20) < s).
      { apply Qnot_le_lt. intro H. apply H55. split; lra. }
      assert (Ha : get_risk_level s = Alto) by (apply get_risk_level_alto, Qltb_true_iff; exact Hs55).
      assert (Hb : get_risk_level (py_round1 s) = Alto)
        by (apply get_risk_level_alto, Qltb_true_iff; lra).
      congruence.
    + assert (H55' : s < 55 - (1 # 20)).
      { apply Qnot_le_lt. intro H. apply H55. split; lra. }
      rewrite (proj2 (get_risk_level_medio_iff s)) by (split; lra).
      apply get_risk_level_medio_iff. split; lra.
  - assert (H25' : s < 25 - (1 # 20)).
    { apply Qnot_le_lt. intro H. apply H25. split; lra. }
    rewrite (proj2 (get_risk_level_baixo_iff s)) by exact Hs25.
    apply get_risk_level_baixo_iff. lra.
Qed.

(* ------------------------------------------------------------------ *)
(** ** Shape of the recommendations list *)

(** For any factors list, [gerar_recomendacoes] returns pairs of
    recommendations: between one and five pairs, no action repeated. *)
Theorem gerar_recomendacoes_pares (fatores : list string) (e : Employee) :
  NoDup (gerar_recomendacoes fatores e) /\
  exists k, (1 <= k <= 5)%nat /\
    List.length (gerar_recomendacoes fatores e) = (2 * k)%nat.
Proof.
  unfold gerar_recomendacoes.
  destruct (any_contains "tempo de casa" fatores), (any_contains "pdi" fatores),
    (any_contains "treinamentos" fatores), (any_contains "ausências" fatores),
    (any_contains "linkedin" fatores);
    (split;
     [cbn; repeat (apply NoDup_cons; [cbn [In]; intuition discriminate|]);
      apply NoDup_nil
     | match goal with |- exists k, _ /\ List.length ?l = _ =>
         exists (Nat.div (List.length l) 2) end;
       split; [vm_compute; lia | vm_compute; reflexivity]]).
Qed.

(* ------------------------------------------------------------------ *)
(** ** Witnesses of the further properties *)

Lemma perfil_estavel_score_zero_witness :
  identificar_fatores_risco perfil_estavel = [msg_estavel] /\
  (calcular_score_risco perfil_estavel == 0) /\
  get_risk_level (calcular_score_risco perfil_estavel) = Baixo.
Proof.
  assert (H : identificar_fatores_risco perfil_estavel = [msg_estavel])
    by (vm_compute; reflexivity).
  split; [exact H | exact (perfil_estavel_score_zero perfil_estavel H)].
Defined.

Lemma export_nivel_score_arredondado_witness :
  ~ (25 - (1 # 20) <= score_risco (pontuar perfil_a) <= 25 + (1 # 20)) /\
  ~ (55 - (1 # 20) <= score_risco (pontuar perfil_a) <= 55 + (1 # 20)) /\
  get_risk_level (j_score_risco (linha_json (pontuar perfil_a))) =
    j_nivel_risco (linha_json (pontuar perfil_a)).
Proof.
  assert (H1 : ~ (25 - (1 # 20) <= score_risco (pontuar perfil_a) <= 25 + (1 # 20)))
    by (intros [H _]; apply Qle_bool_iff in H; vm_compute in H; discriminate).
  assert (H2 : ~ (55 - (1 # 20) <= score_risco (pontuar perfil_a) <= 55 + (1 # 20)))
    by (intros [H _]; apply Qle_bool_iff in H; vm_compute in H; discriminate).
  split; [exact H1|]. split; [exact H2|].
  exact (export_nivel_score_arredondado _ H1 H2).
Defined.

(* ------------------------------------------------------------------ *)
(** ** The risk distribution dict *)

Local Open Scope string_scope.

Lemma risk_counts_dict_acc (es : list Employee) (b m a : nat) :
  fold_left (fun acc emp =>
      rc <- acc ;; dict_incr (nivel_str (get_risk_level (score_risco emp))) rc)
    es (inr [("Baixo", b); ("Médio", m); ("Alto", a)]) =
  inr [("Baixo", b + List.length (filter (fun e =>
          match get_risk_level (score_risco e) with Baixo => true | _ => false end) es));
       ("Médio", m + List.length (filter (fun e =>
          match get_risk_level (score_risco e) with Medio => true | _ => false end) es));
       ("Alto", a + List.length (filter (fun e =>
          match get_risk_level (score_risco e) with Alto => true | _ => false end) es))]%nat.
Proof.
  revert b m a. induction es as [|e es IH]; intros b m a.
  - cbn. rewrite !Nat.add_0_r. reflexivity.
  - cbn [fold_left filter].
    destruct (get_risk_level (score_risco e)); cbn -[fold_left];
      rewrite IH; cbn [List.length Nat.add]; rewrite ?Nat.add_succ_r; reflexivity.
Qed.

Local Close Scope string_scope.

(** In [create_risk_distribution_chart], every level [get_risk_level]
    returns is a key of the [risk_counts] dict, so [risk_counts[level] += 1]
    never raises [KeyError]; the dict ends with the keys "Baixo",
    "Médio", "Alto" in this order, holding the number of employees of
    each level, and these counts add up to the number of employees. *)
Theorem risk_counts_dict_sem_keyerror (es : list Employee) :
  risk_counts_dict es =
    inr [("Baixo"%string, rc_baixo (risk_counts es));
         ("Médio"%string, rc_medio (risk_counts es));
         ("Alto"%string, rc_alto (risk_counts es))] /\
  (rc_baixo (risk_counts es) + rc_medio (risk_counts es) +
   rc_alto (risk_counts es) = List.length es)%nat.
Proof.
  split; [|apply risk_counts_soma].
  unfold risk_counts_dict, risk_counts_init. rewrite risk_counts_dict_acc.
  unfold risk_counts. rewrite risk_counts_acc. reflexivity.
Qed.

(* ------------------------------------------------------------------ *)
(** ** The score over Python floats *)
















Lemma dept_data_listas_nao_vazias_witness :
  In ("TI"%string, [0]) (dept_data [exemplo_7_anos]) /\
  (1 <= List.length [0])%nat.
Proof.
  assert (H : In ("TI"%string, [0]) (dept_data [exemplo_7_anos]))
    by (simpl; left; reflexivity).
  exact (conj H (dept_data_listas_nao_vazias [exemplo_7_anos] "TI"%string [0] H)).
Defined.
